(** * Smart Trippy API: the mock itinerary generator and the plan endpoint

    A shallow embedding of [main.py]: the pydantic models, the vendor
    table, [_mock_link], [_generate_mock_plan] and [plan_trip], followed by
    the properties of the generator's output.

    Conventions of the embedding:
    - a Python [int] is a [Z]; turning one into text ([str], an
      f-string) raises [ValueError] when it has more than 4300 digits,
      the limit the interpreter starts with;
    - a [datetime.date] is its proleptic Gregorian ordinal, the number
      CPython's [date.__add__] and [date.__sub__] compute with; the ordinal
      of a date lies in [1, _MAXORDINAL] and an addition that leaves this
      range raises [OverflowError];
    - a Python [float] is a binary64 primitive float;
    - a [str] is a [string] (its UTF-8 bytes; the only character the code
      inspects is the ASCII space);
    - a raised exception is the [Raise] branch of [result];
    - the ambient state a handler can observe (the system clock read by
      [date.today()], the module-level [db] handle) is a [World], threaded
      through the monad [M]. *)

From Stdlib Require Import ZArith List String Ascii Bool Lia.
From Stdlib Require Import DecimalString Floats Uint63.
From Stdlib Require Import Sorted DecimalPos DecimalZ.
Import ListNotations.
Open Scope Z_scope.

Notation "a +++ b" := (String.append a b)
  (at level 60, right associativity) : string_scope.

(* ------------------------------------------------------------------ *)
(** ** Exceptions and fallible computations *)

Inductive exn : Type :=
| OverflowError (msg : string)
| IndexError (msg : string)
| ValidationError (field : string)
| ValueError (msg : string)
| HTTPException (status_code : Z) (detail : string).

Inductive result (A : Type) : Type :=
| Ok (a : A)
| Raise (e : exn).

Arguments Ok {A} a.
Arguments Raise {A} e.

Definition rbind {A B : Type} (m : result A) (k : A -> result B) : result B :=
  match m with
  | Ok a => k a
  | Raise e => Raise e
  end.

Declare Scope result_scope.
Delimit Scope result_scope with result.
Notation "x <- m ;; k" := (rbind m (fun x => k))
  (at level 61, m at next level, right associativity) : result_scope.
Notation "' p <- m ;; k" := (rbind m (fun x => let p := x in k))
  (at level 61, p pattern, m at next level, right associativity) : result_scope.

(** [for x in xs: body], the loop state threaded through the iterations;
    an exception raised by an iteration leaves the loop. *)
Fixpoint for_each {A S : Type} (xs : list A) (body : A -> S -> result S)
  (s : S) : result S :=
  match xs with
  | [] => Ok s
  | x :: xs' =>
      match body x s with
      | Ok s' => for_each xs' body s'
      | Raise e => Raise e
      end
  end.

(** [range(lo, hi)]. *)
Fixpoint range_from (lo : Z) (n : nat) : list Z :=
  match n with
  | O => []
  | S n' => lo :: range_from (lo + 1) n'
  end.

Definition range (lo hi : Z) : list Z := range_from lo (Z.to_nat (hi - lo)).

(** [l[i]] on a Python list: a negative index counts from the end, an
    index outside the list raises [IndexError]. *)
Definition getitem {A : Type} (l : list A) (i : Z) : result A :=
  let n := Z.of_nat (List.length l) in
  let j := if i <? 0 then i + n else i in
  if (0 <=? j) && (j <? n) then
    match nth_error l (Z.to_nat j) with
    | Some a => Ok a
    | None => Raise (IndexError "list index out of range")
    end
  else Raise (IndexError "list index out of range").

(* ------------------------------------------------------------------ *)
(** ** Strings, integers and floats *)

(** The decimal text of an integer. *)
Definition str_int (n : Z) : string := NilZero.string_of_int (Z.to_int n).

(** [sys.get_int_max_str_digits()], as the interpreter starts. *)
Definition int_max_str_digits : Z := 4300.

(** [str(n)] and [f"{n}"] for an [int]: the decimal text, unless the
    integer has more digits than the interpreter converts. *)
Definition format_int (n : Z) : result string :=
  if Z.abs n <? 10 ^ int_max_str_digits then Ok (str_int n)
  else Raise (ValueError
    ("Exceeds the limit (4300 digits) for integer string conversion; "
     +++ "use sys.set_int_max_str_digits() to increase the limit")%string).

(** [s.replace(old, new)] for one-character [old] and [new]. *)
Fixpoint replace (old new : ascii) (s : string) : string :=
  match s with
  | EmptyString => EmptyString
  | String c s' =>
      String (if Ascii.eqb c old then new else c) (replace old new s')
  end.

(** Truthiness of a [str] and of an [Optional[str]]. *)
Definition truthy (s : string) : bool :=
  match s with
  | EmptyString => false
  | String _ _ => true
  end.

Definition truthy_opt (o : option string) : bool :=
  match o with
  | Some s => truthy s
  | None => false
  end.

(** The conversion pydantic applies to an [int] given for a [float]
    field, for the integers below 2^53 in absolute value, which a float
    holds exactly; the prices, the only integers it is applied to, are
    145 and 180. *)
Definition float_of_int (n : Z) : float :=
  if n <? 0 then PrimFloat.opp (PrimFloat.of_uint63 (Uint63.of_Z (- n)))
  else PrimFloat.of_uint63 (Uint63.of_Z n).

(** [needle in hay]. *)
Fixpoint contains (needle hay : string) : bool :=
  String.prefix needle hay ||
  match hay with
  | EmptyString => false
  | String _ hay' => contains needle hay'
  end.

(* ------------------------------------------------------------------ *)
(** ** Calendar dates *)

Record date : Type := fromordinal { toordinal : Z }.

Definition _MAXORDINAL : Z := 3652059.

(** The ordinals [date] objects have. *)
Definition valid_date (d : date) : Prop := 1 <= toordinal d <= _MAXORDINAL.

Definition valid_opt (o : option date) : Prop :=
  match o with
  | Some d => valid_date d
  | None => True
  end.

(** [timedelta(days=n)] is its number of days. *)
Definition timedelta (days : Z) : Z := days.

(** [d + timedelta(days=n)]. *)
Definition date_add (d : date) (days : Z) : result date :=
  let o := toordinal d + days in
  if (0 <? o) && (o <=? _MAXORDINAL) then Ok (fromordinal o)
  else Raise (OverflowError "date value out of range").

(** [(a - b).days]. *)
Definition date_sub_days (a b : date) : Z := toordinal a - toordinal b.

(** The ordinal of a year, month and day, for writing dates down. *)
Definition _is_leap (y : Z) : bool :=
  (y mod 4 =? 0) && (negb (y mod 100 =? 0) || (y mod 400 =? 0)).

Definition _days_before_year (year : Z) : Z :=
  let y := year - 1 in y * 365 + y / 4 - y / 100 + y / 400.

Definition _DAYS_BEFORE_MONTH : list Z :=
  [0; 31; 59; 90; 120; 151; 181; 212; 243; 273; 304; 334].

Definition _days_before_month (year month : Z) : Z :=
  nth (Z.to_nat (month - 1)) _DAYS_BEFORE_MONTH 0
  + (if (2 <? month) && _is_leap year then 1 else 0).

Definition _ymd2ord (year month day : Z) : Z :=
  _days_before_year year + _days_before_month year month + day.

Definition ymd (year month day : Z) : date :=
  fromordinal (_ymd2ord year month day).

(* ------------------------------------------------------------------ *)
(** ** The ambient state and the handler monad *)

(** What a saved trip looks like in the document store is of no concern
    here; a stored document is a name and a rendered body. *)
Definition document : Type := (string * string)%type.

Record World : Type := mkWorld {
  clock : date;                    (* what [date.today()] returns *)
  db : option (list document)      (* the module-level [db] handle *)
}.

Definition M (A : Type) : Type := World -> result A * World.

Definition ret {A : Type} (a : A) : M A := fun w => (Ok a, w).

Definition raise {A : Type} (e : exn) : M A := fun w => (Raise e, w).

Definition bind {A B : Type} (m : M A) (k : A -> M B) : M B :=
  fun w =>
    match m w with
    | (Ok a, w') => k a w'
    | (Raise e, w') => (Raise e, w')
    end.

Definition lift {A : Type} (r : result A) : M A := fun w => (r, w).

Definition date_today : M date := fun w => (Ok (clock w), w).

Declare Scope monad_scope.
Delimit Scope monad_scope with monad.
Notation "x <- m ;; k" := (bind m (fun x => k))
  (at level 61, m at next level, right associativity) : monad_scope.
Notation "' p <- m ;; k" := (bind m (fun x => let p := x in k))
  (at level 61, p pattern, m at next level, right associativity) : monad_scope.

(** [a or b] where [a] is an [Optional] whose values are all truthy (a
    [date] is never falsy); [b] is only looked at when [a] is [None]. *)
Definition or_else {A : Type} (a : option A) (b : result A) : result A :=
  match a with
  | Some x => Ok x
  | None => b
  end.

(* ------------------------------------------------------------------ *)
(** ** Models / schemas *)

Module ItineraryItem.

Inductive kind : Type := hotel | activity | restaurant | transport | tip.

Record t : Type := mk {
  day : Z;
  type : kind;
  title : string;
  description : option string;
  location : option string;
  start_time : option string;
  end_time : option string;
  price : option float;
  currency : option string;
  link : option string;
  available : bool;
  vendor : option string
}.

(** The keyword arguments a call of the constructor may give beside the
    three required fields. *)
Inductive kwarg : Type :=
| Description (v : option string)
| Location (v : option string)
| Start_time (v : option string)
| End_time (v : option string)
| Price (v : option float)
| Currency (v : option string)
| Link (v : option string)
| Available (v : bool)
| Vendor (v : option string).

(** The field defaults of the class: every optional field is [None],
    except [currency = "USD"] and [available = True]. *)
Definition defaults (day : Z) (type : kind) (title : string) : t :=
  mk day type title None None None None None (Some "USD"%string) None
     true None.

Definition set (it : t) (k : kwarg) : t :=
  match it with
  | mk d ty ti de lo st en pr cu li av ve =>
      match k with
      | Description v => mk d ty ti v lo st en pr cu li av ve
      | Location v => mk d ty ti de v st en pr cu li av ve
      | Start_time v => mk d ty ti de lo v en pr cu li av ve
      | End_time v => mk d ty ti de lo st v pr cu li av ve
      | Price v => mk d ty ti de lo st en v cu li av ve
      | Currency v => mk d ty ti de lo st en pr v li av ve
      | Link v => mk d ty ti de lo st en pr cu v av ve
      | Available v => mk d ty ti de lo st en pr cu li v ve
      | Vendor v => mk d ty ti de lo st en pr cu li av v
      end
  end.

(** [ItineraryItem(day=..., type=..., title=..., **kwargs)]: the
    defaults, overridden by the keywords given, then validated
    ([day: int = Field(..., ge=1)]). *)
Definition new (day : Z) (type : kind) (title : string)
  (kwargs : list kwarg) : result t :=
  let it := fold_left set kwargs (defaults day type title) in
  if 1 <=? ItineraryItem.day it then Ok it
  else Raise (ValidationError "day").

End ItineraryItem.

Module PlanRequest.

Record t : Type := mk {
  destination : string;
  start_date : option date;
  end_date : option date;
  travelers : Z;
  preferences : option string;
  budget : option string;
  style : option string
}.

Inductive kwarg : Type :=
| Start_date (v : option date)
| End_date (v : option date)
| Travelers (v : Z)
| Preferences (v : option string)
| Budget (v : option string)
| Style (v : option string).

(** The field defaults of the class: [travelers = 1], the rest [None]. *)
Definition defaults (destination : string) : t :=
  mk destination None None 1 None None None.

Definition set (r : t) (k : kwarg) : t :=
  match r with
  | mk de sd ed tr pr bu st =>
      match k with
      | Start_date v => mk de v ed tr pr bu st
      | End_date v => mk de sd v tr pr bu st
      | Travelers v => mk de sd ed v pr bu st
      | Preferences v => mk de sd ed tr v bu st
      | Budget v => mk de sd ed tr pr v st
      | Style v => mk de sd ed tr pr bu v
      end
  end.

(** [PlanRequest(destination=..., **kwargs)]; no field carries a
    constraint beyond its type. *)
Definition new (destination : string) (kwargs : list kwarg) : t :=
  fold_left set kwargs (defaults destination).

End PlanRequest.

Module PlanResponse.

Record t : Type := mk {
  destination : string;
  start_date : date;
  end_date : date;
  nights : Z;
  travelers : Z;
  summary : string;
  items : list ItineraryItem.t;
  sources : list (list (string * string))
}.

End PlanResponse.

(* ------------------------------------------------------------------ *)
(** ** Utility: mock availability aggregator *)

Open Scope string_scope.
Open Scope Z_scope.

Definition VENDORS : list (string * string) :=
  [ ("Booking.com", "https://www.booking.com");
    ("Airbnb", "https://www.airbnb.com");
    ("Hotels.com", "https://www.hotels.com");
    ("Expedia", "https://www.expedia.com");
    ("Viator", "https://www.viator.com");
    ("GetYourGuide", "https://www.getyourguide.com") ].

Definition len {A : Type} (l : list A) : Z := Z.of_nat (List.length l).

Definition _mock_link (vendor_base q : string) : string :=
  vendor_base +++ "/search?q=" +++ replace " " "+" q.

Import ItineraryItem(hotel, activity, restaurant, transport, tip).
Import ItineraryItem(Description, Location, Start_time, End_time, Price,
                     Currency, Link, Available, Vendor).

Definition _generate_mock_plan (payload : PlanRequest.t) : M PlanResponse.t :=
  (today <- date_today ;;
   start <- lift (or_else (PlanRequest.start_date payload)
                          (date_add today (timedelta 14))) ;;
   end_ <- lift (or_else (PlanRequest.end_date payload)
                         (date_add start (timedelta 4))) ;;
   let nights := date_sub_days end_ start in
   '(end_, nights) <- lift
      (if nights <=? 0 then
         (end_ <- date_add start (timedelta 4) ;;
          Ok (end_, date_sub_days end_ start))%result
       else Ok (end_, nights)) ;;

   (* Hotels (only bookable) *)
   items <- lift (for_each (range 0 2) (fun i items =>
      ('(vendor_name, base) <- getitem VENDORS (i mod len VENDORS) ;;
       number <- format_int (i + 1) ;;
       let hotel_name :=
         PlanRequest.destination payload +++ " Boutique Hotel "
           +++ number in
       nights_text <- format_int nights ;;
       item <- ItineraryItem.new 1 hotel hotel_name
         [ Description (Some ("Centrally located stay for "
                              +++ nights_text +++ " nights."));
           Location (Some (PlanRequest.destination payload));
           Price (Some (float_of_int (145 + i * 35)));
           Currency (Some "USD");
           Link (Some (_mock_link base hotel_name));
           Available true;
           Vendor (Some vendor_name) ] ;;
       Ok (items ++ [item])%list)%result) []) ;;

   (* Activities for each day *)
   items <- lift (for_each (range 1 (nights + 1)) (fun d items =>
      ('(vendor_name, base) <- getitem VENDORS ((d + 2) mod len VENDORS) ;;
       day_text <- format_int d ;;
       let act_title := "Guided walking tour - Day " +++ day_text in
       item <- ItineraryItem.new d activity act_title
         [ Description
             (Some "Highly rated experience with instant confirmation.");
           Location (Some (PlanRequest.destination payload));
           Price (Some 39.0%float);
           Currency (Some "USD");
           Link (Some (_mock_link base
                   (PlanRequest.destination payload +++ " walking tour")));
           Available true;
           Vendor (Some vendor_name);
           Start_time (Some "10:00");
           End_time (Some "12:00") ] ;;
       let items := (items ++ [item])%list in
       day_text <- format_int d ;;
       let rest_title := "Cozy local restaurant - Day " +++ day_text in
       item <- ItineraryItem.new d restaurant rest_title
         [ Description (Some "Loved by locals. Reserve a table online.");
           Location (Some (PlanRequest.destination payload));
           Price None;
           Link (Some (_mock_link "https://www.opentable.com"
                   (PlanRequest.destination payload +++ " dinner")));
           Available true;
           Vendor (Some "OpenTable");
           Start_time (Some "19:30") ] ;;
       Ok (items ++ [item])%list)%result) items) ;;

   let sources :=
     [ [("name", "Tripadvisor"); ("url", "https://www.tripadvisor.com")];
       [("name", "Viator"); ("url", "https://www.viator.com")] ] in

   nights_text <- lift (format_int nights) ;;
   travelers_text <- lift (format_int (PlanRequest.travelers payload)) ;;
   let summary :=
     ("Personalized " +++ nights_text +++ "-night plan for "
        +++ PlanRequest.destination payload +++ ". "
        +++ "Optimized for " +++ travelers_text
        +++ " traveler(s)")
     +++ (match PlanRequest.style payload with
          | Some s => if truthy s then " with a " +++ s +++ " vibe" else ""
          | None => ""
          end)
     +++ (match PlanRequest.budget payload with
          | Some b => if truthy b then " and " +++ b +++ " budget." else "."
          | None => "."
          end) in

   ret (PlanResponse.mk
          (PlanRequest.destination payload)
          start
          end_
          nights
          (PlanRequest.travelers payload)
          summary
          items
          sources))%monad.

(* ------------------------------------------------------------------ *)
(** ** Routes *)

(** [POST /api/plan]. *)
Definition plan_trip (payload : PlanRequest.t) : M PlanResponse.t :=
  (if negb (truthy (PlanRequest.destination payload)) then
     raise (HTTPException 400 "Destination is required")
   else
     plan <- _generate_mock_plan payload ;;
     ret plan)%monad.

(* ------------------------------------------------------------------ *)
(** ** The stored trips *)

(** [db], as a handler reads it. *)
Definition get_db : M (option (list document)) := fun w => (Ok (db w), w).

Section Store.

(** What the document store keeps in a document besides text and [None]
    (an [ObjectId], a timestamp, a sub-document), and its [str()]. *)
Variable stored : Type.
Variable str_stored : stored -> string.

Inductive value : Type :=
| VNone
| VStr (s : string)
| VStored (v : stored).

(** [str(v)]. *)
Definition str_value (v : value) : string :=
  match v with
  | VNone => "None"
  | VStr s => s
  | VStored x => str_stored x
  end.

(** A Python [dict] with [str] keys: its items in insertion order, no key
    twice. *)
Definition dict : Type := list (string * value).

Fixpoint dict_lookup (d : dict) (key : string) : option value :=
  match d with
  | [] => None
  | (k, v) :: d' => if String.eqb k key then Some v else dict_lookup d' key
  end.

(** [d.get(key)]. *)
Definition dict_get (d : dict) (key : string) : value :=
  match dict_lookup d key with
  | Some v => v
  | None => VNone
  end.

(** [d[key] = v]: a key already there keeps its place, a new one goes to
    the end. *)
Fixpoint dict_set (d : dict) (key : string) (v : value) : dict :=
  match d with
  | [] => [(key, v)]
  | (k, x) :: d' =>
      if String.eqb k key then (k, v) :: d'
      else (k, x) :: dict_set d' key v
  end.

(** [database.get_documents], which is not part of this file: whatever
    it does with the world, it answers with documents or raises. *)
Variable get_documents : string -> Z -> M (list dict).

(** [GET /api/trips]; [limit] is [None] when the query gives none. The
    loop updates each document in place and collects it; the documents
    are values here, which gives the same list: a document object met
    twice is converted twice, and the conversion of a converted document
    changes nothing. *)
Definition list_trips (limit : option Z) : M (list (string * list dict)) :=
  (let limit := match limit with Some n => n | None => 20 end in
   handle <- get_db ;;
   match handle with
   | None => raise (HTTPException 503 "Database not available")
   | Some _ =>
       docs <- get_documents "trip" limit ;;
       (* Convert ObjectId to str if present *)
       sanitized <- lift (for_each docs (fun d sanitized =>
         let d := dict_set d "_id" (VStr (str_value (dict_get d "_id"))) in
         Ok (sanitized ++ [d])%list) []) ;;
       ret [("trips", sanitized)]
   end)%monad.

End Store.

Arguments VNone {stored}.
Arguments VStr {stored} s.
Arguments VStored {stored} v.
Arguments dict_lookup {stored} d key.
Arguments dict_get {stored} d key.
Arguments dict_set {stored} d key v.

(* ------------------------------------------------------------------ *)
(** ** The diagnostic *)

(** An exception (an [Exception], which is what [except Exception]
    catches), as far as the diagnostic looks at one: its [str(e)]. *)
Inductive outcome (A : Type) : Type :=
| Returns (a : A)
| Raises (str_e : string).

Arguments Returns {A} a.
Arguments Raises {A} str_e.

(** A byte that continues a UTF-8 character. *)
Definition is_continuation (c : ascii) : bool :=
  (N.land (N_of_ascii c) 192 =? 128)%N.

(** [s[:n]]: the first [n] characters of [s]. *)
Fixpoint str_prefix (n : nat) (s : string) : string :=
  match s with
  | EmptyString => EmptyString
  | String c s' =>
      if is_continuation c then String c (str_prefix n s')
      else match n with
           | O => EmptyString
           | S n' => String c (str_prefix n' s')
           end
  end.

(** The number of characters of [s]. *)
Fixpoint str_len (s : string) : nat :=
  match s with
  | EmptyString => O
  | String c s' => if is_continuation c then str_len s' else S (str_len s')
  end.

Module Database.

(** The two things the diagnostic asks of the [db] handle, and what each
    answers: [getattr(db, "name", None)] and
    [db.list_collection_names()]. *)
Record t : Type := mk {
  name : outcome (option string);
  list_collection_names : outcome (list string)
}.

End Database.

Module Diagnostics.

(** The [response] dictionary. *)
Record t : Type := mk {
  backend : string;
  database : string;
  database_url : option string;
  database_name : option string;
  connection_status : string;
  collections : list string
}.

Definition set_database (v : string) (r : t) : t :=
  mk (backend r) v (database_url r) (database_name r)
     (connection_status r) (collections r).

Definition set_database_url (v : option string) (r : t) : t :=
  mk (backend r) (database r) v (database_name r)
     (connection_status r) (collections r).

Definition set_database_name (v : option string) (r : t) : t :=
  mk (backend r) (database r) (database_url r) v
     (connection_status r) (collections r).

Definition set_connection_status (v : string) (r : t) : t :=
  mk (backend r) (database r) (database_url r) (database_name r)
     v (collections r).

Definition set_collections (v : list string) (r : t) : t :=
  mk (backend r) (database r) (database_url r) (database_name r)
     (connection_status r) v.

End Diagnostics.

(** Statements that update [response] and may raise: what was assigned
    before an exception stays assigned. *)
Definition D (A : Type) : Type := Diagnostics.t -> outcome A * Diagnostics.t.

Definition dbind {A B : Type} (m : D A) (k : A -> D B) : D B :=
  fun r =>
    match m r with
    | (Returns a, r') => k a r'
    | (Raises e, r') => (Raises e, r')
    end.

(** [response[...] = v]. *)
Definition assign (update : Diagnostics.t -> Diagnostics.t) : D unit :=
  fun r => (Returns tt, update r).

(** A call that returns or raises. *)
Definition call {A : Type} (o : outcome A) : D A := fun r => (o, r).

(** [try: body except Exception as e: handler]. *)
Definition try_except (body : D unit) (handler : string -> D unit) : D unit :=
  fun r =>
    match body r with
    | (Returns a, r') => (Returns a, r')
    | (Raises e, r') => handler e r'
    end.

Declare Scope diag_scope.
Delimit Scope diag_scope with diag.
Notation "x <- m ;; k" := (dbind m (fun x => k))
  (at level 61, m at next level, right associativity) : diag_scope.
Notation "m ;;; k" := (dbind m (fun _ => k))
  (at level 61, right associativity) : diag_scope.

(** [GET /test]; [db] is the module's handle and [getenv] the process
    environment. *)
Definition test_database (db : option Database.t)
  (getenv : string -> option string) : outcome Diagnostics.t :=
  let response :=
    Diagnostics.mk "✅ Running" "❌ Not Available" None None
                   "Not Connected" [] in
  let (raised, response) :=
    try_except
      (match db with
       | Some db =>
           (assign (Diagnostics.set_database "✅ Available") ;;;
            assign (Diagnostics.set_database_url (Some "✅ Configured")) ;;;
            name <- call (Database.name db) ;;
            assign (Diagnostics.set_database_name name) ;;;
            assign (Diagnostics.set_connection_status "Connected") ;;;
            try_except
              (collections <- call (Database.list_collection_names db) ;;
               assign (Diagnostics.set_collections (firstn 10 collections)) ;;;
               assign (Diagnostics.set_database "✅ Connected & Working"))
              (fun e =>
                 assign (Diagnostics.set_database
                           ("⚠️ Connected but Error: "
                              +++ str_prefix 50 e))))%diag
       | None =>
           assign (Diagnostics.set_database
                     "⚠️ Available but not initialized")
       end)
      (fun e =>
         assign (Diagnostics.set_database ("❌ Error: " +++ str_prefix 50 e)))
      response in
  match raised with
  | Raises e => Raises e
  | Returns _ =>
      let response :=
        Diagnostics.set_database_url
          (Some (if truthy_opt (getenv "DATABASE_URL")
                 then "✅ Set" else "❌ Not Set")) response in
      let response :=
        Diagnostics.set_database_name
          (Some (if truthy_opt (getenv "DATABASE_NAME")
                 then "✅ Set" else "❌ Not Set")) response in
      Returns response
  end.

(* ------------------------------------------------------------------ *)
(** ** Closed forms of what the generator produces

    The items and the plan as the specification describes them, to be
    compared with what [_generate_mock_plan] computes. *)

(** Vendor rotation: the table entry at [index mod N]. *)
Definition vendor_at (index : Z) : string * string :=
  nth (Z.to_nat (index mod len VENDORS)) VENDORS ("", "").

(** Hotel number [n] (1 or 2) of a plan of [nights] nights. *)
Definition hotel_item (dest : string) (nights n : Z) : ItineraryItem.t :=
  let name := dest +++ " Boutique Hotel " +++ str_int n in
  {| ItineraryItem.day := 1;
     ItineraryItem.type := hotel;
     ItineraryItem.title := name;
     ItineraryItem.description :=
       Some ("Centrally located stay for " +++ str_int nights +++ " nights.");
     ItineraryItem.location := Some dest;
     ItineraryItem.start_time := None;
     ItineraryItem.end_time := None;
     ItineraryItem.price := Some (float_of_int (145 + 35 * (n - 1)));
     ItineraryItem.currency := Some "USD";
     ItineraryItem.link :=
       Some (snd (vendor_at (n - 1)) +++ "/search?q=" +++ replace " " "+" name);
     ItineraryItem.available := true;
     ItineraryItem.vendor := Some (fst (vendor_at (n - 1))) |}.

Definition activity_item (dest : string) (d : Z) : ItineraryItem.t :=
  {| ItineraryItem.day := d;
     ItineraryItem.type := activity;
     ItineraryItem.title := "Guided walking tour - Day " +++ str_int d;
     ItineraryItem.description :=
       Some "Highly rated experience with instant confirmation.";
     ItineraryItem.location := Some dest;
     ItineraryItem.start_time := Some "10:00";
     ItineraryItem.end_time := Some "12:00";
     ItineraryItem.price := Some 39.0%float;
     ItineraryItem.currency := Some "USD";
     ItineraryItem.link :=
       Some (_mock_link (snd (vendor_at (d + 2))) (dest +++ " walking tour"));
     ItineraryItem.available := true;
     ItineraryItem.vendor := Some (fst (vendor_at (d + 2))) |}.

Definition restaurant_item (dest : string) (d : Z) : ItineraryItem.t :=
  {| ItineraryItem.day := d;
     ItineraryItem.type := restaurant;
     ItineraryItem.title := "Cozy local restaurant - Day " +++ str_int d;
     ItineraryItem.description :=
       Some "Loved by locals. Reserve a table online.";
     ItineraryItem.location := Some dest;
     ItineraryItem.start_time := Some "19:30";
     ItineraryItem.end_time := None;
     ItineraryItem.price := None;
     ItineraryItem.currency := Some "USD";
     ItineraryItem.link :=
       Some (_mock_link "https://www.opentable.com" (dest +++ " dinner"));
     ItineraryItem.available := true;
     ItineraryItem.vendor := Some "OpenTable" |}.

Definition day_items (dest : string) (d : Z) : list ItineraryItem.t :=
  [activity_item dest d; restaurant_item dest d].

Definition plan_items (dest : string) (nights : Z) : list ItineraryItem.t :=
  hotel_item dest nights 1 :: hotel_item dest nights 2
    :: flat_map (day_items dest) (range 1 (nights + 1)).

(** The ordinal of the start date the generator works with: the one
    supplied, or today + 14 days. *)
Definition start_ord (w : World) (payload : PlanRequest.t) : Z :=
  match PlanRequest.start_date payload with
  | Some s => toordinal s
  | None => toordinal (clock w) + 14
  end.

(** The dates of a request are dates. *)
Definition valid_request (payload : PlanRequest.t) : Prop :=
  valid_opt (PlanRequest.start_date payload) /\
  valid_opt (PlanRequest.end_date payload).

(** Lines 85 to 90 on their own: the resolved start date, end date and
    number of nights. *)
Definition resolve_dates (today : date) (payload : PlanRequest.t)
  : result (date * date * Z) :=
  (start <- or_else (PlanRequest.start_date payload)
                    (date_add today (timedelta 14)) ;;
   end_ <- or_else (PlanRequest.end_date payload)
                   (date_add start (timedelta 4)) ;;
   let nights := date_sub_days end_ start in
   if nights <=? 0 then
     (end_ <- date_add start (timedelta 4) ;;
      Ok (start, end_, date_sub_days end_ start))
   else Ok (start, end_, nights))%result.

Definition kind_eqb (a b : ItineraryItem.kind) : bool :=
  match a, b with
  | hotel, hotel | activity, activity | restaurant, restaurant
  | transport, transport | tip, tip => true
  | _, _ => false
  end.

(** The items of kind [k] scheduled on day [d]. *)
Definition items_on (k : ItineraryItem.kind) (d : Z)
  (items : list ItineraryItem.t) : list ItineraryItem.t :=
  filter (fun it => kind_eqb (ItineraryItem.type it) k
                    && (ItineraryItem.day it =? d)) items.

Definition items_of_kind (k : ItineraryItem.kind)
  (items : list ItineraryItem.t) : list ItineraryItem.t :=
  filter (fun it => kind_eqb (ItineraryItem.type it) k) items.

Definition summary_text (payload : PlanRequest.t) (nights : Z) : string :=
  ("Personalized " +++ str_int nights +++ "-night plan for "
     +++ PlanRequest.destination payload +++ ". "
     +++ "Optimized for " +++ str_int (PlanRequest.travelers payload)
     +++ " traveler(s)")
  +++ (if truthy_opt (PlanRequest.style payload)
       then " with a " +++ match PlanRequest.style payload with
                           | Some s => s | None => "" end +++ " vibe"
       else "")
  +++ (if truthy_opt (PlanRequest.budget payload)
       then " and " +++ match PlanRequest.budget payload with
                        | Some b => b | None => "" end +++ " budget."
       else ".").

Definition fixed_sources : list (list (string * string)) :=
  [ [("name", "Tripadvisor"); ("url", "https://www.tripadvisor.com")];
    [("name", "Viator"); ("url", "https://www.viator.com")] ].

Definition plan_of (payload : PlanRequest.t) (start end_ : date) (nights : Z)
  : PlanResponse.t :=
  {| PlanResponse.destination := PlanRequest.destination payload;
     PlanResponse.start_date := start;
     PlanResponse.end_date := end_;
     PlanResponse.nights := nights;
     PlanResponse.travelers := PlanRequest.travelers payload;
     PlanResponse.summary := summary_text payload nights;
     PlanResponse.items :=
       plan_items (PlanRequest.destination payload) nights;
     PlanResponse.sources := fixed_sources |}.

(** The item of kind [k] that day [d] contributes, if any. *)
Definition pick (k : ItineraryItem.kind) (dest : string) (d : Z)
  : list ItineraryItem.t :=
  match k with
  | activity => [activity_item dest d]
  | restaurant => [restaurant_item dest d]
  | _ => []
  end.

(** Example requests and worlds. *)
Definition world_2025 : World := mkWorld (ymd 2025 5 1) None.

Definition paris_request : PlanRequest.t :=
  PlanRequest.new "Paris"
    [ PlanRequest.Start_date (Some (ymd 2025 6 1));
      PlanRequest.End_date (Some (ymd 2025 6 4)) ].

Definition tokyo_request : PlanRequest.t := PlanRequest.new "Tokyo" [].

(** A start date three days before [date.max], no end date. *)
Definition late_request : PlanRequest.t :=
  PlanRequest.new "Paris" [ PlanRequest.Start_date (Some (ymd 9999 12 30)) ].

(** The same dates, no destination. *)
Definition empty_late_request : PlanRequest.t :=
  PlanRequest.new "" [ PlanRequest.Start_date (Some (ymd 9999 12 30)) ].

Definition zero_travelers_request : PlanRequest.t :=
  PlanRequest.new "Paris" [ PlanRequest.Travelers 0 ].

(** Nine nights in Rome. *)
Definition rome_request : PlanRequest.t :=
  PlanRequest.new "Rome"
    [ PlanRequest.Start_date (Some (ymd 2025 6 1));
      PlanRequest.End_date (Some (ymd 2025 6 10)) ].

(** A destination that is one space. *)
Definition space_request : PlanRequest.t := PlanRequest.new " " [].

(** The link of an item, if it has one, does not contain [needle]. *)
Definition link_lacks (needle : string) (it : ItineraryItem.t) : bool :=
  match ItineraryItem.link it with
  | Some l => negb (contains needle l)
  | None => true
  end.

(** What the loop of [list_trips] makes of one document: its [_id]
    becomes the text of what was there. *)
Definition sanitize {stored : Type} (str_stored : stored -> string)
  (d : dict stored) : dict stored :=
  dict_set d "_id" (VStr (str_value stored str_stored (dict_get d "_id"))).

(** A store of two trips, identifiers as their hexadecimal text: the
    first document has an [_id], the second has none. *)
Definition two_documents : list (dict string) :=
  [ [("_id", VStored "64f0c0ffee"); ("name", VStr "Paris in June")];
    [("name", VStr "Tokyo")] ].

Definition two_trips_store (collection : string) (limit : Z)
  : M (list (dict string)) :=
  ret two_documents.

Definition world_with_store : World := mkWorld (ymd 2025 5 1) (Some []).

(** What a plan schedules: everything but the traveler count and the
    summary. *)
Definition itinerary_of (resp : PlanResponse.t) :=
  (PlanResponse.destination resp, PlanResponse.start_date resp,
   PlanResponse.end_date resp, PlanResponse.nights resp,
   PlanResponse.items resp, PlanResponse.sources resp).

(** The generator has to compute [start + timedelta(days=4)]: the request
    has no end date, or one that is not after the start date. *)
Definition needs_fourth_day (w : World) (payload : PlanRequest.t) : Prop :=
  match PlanRequest.end_date payload with
  | Some e => toordinal e <= start_ord w payload
  | None => True
  end.

(** The request's dates resolve: the date four days after the start
    date, where the generator has to compute it, is a date. *)
Definition dates_resolve (w : World) (payload : PlanRequest.t) : Prop :=
  needs_fourth_day w payload -> start_ord w payload + 4 <= _MAXORDINAL.

(** They do not: that date is needed and is past [date.max]. *)
Definition date_overflows (w : World) (payload : PlanRequest.t) : Prop :=
  needs_fourth_day w payload /\ _MAXORDINAL < start_ord w payload + 4.

(** What [str()] raises for an integer of more digits. *)
Definition digits_exceeded : exn :=
  ValueError
    ("Exceeds the limit (4300 digits) for integer string conversion; "
     +++ "use sys.set_int_max_str_digits() to increase the limit").

(** An integer [str()] converts: one of at most 4300 digits. *)
Definition printable (n : Z) : Prop := Z.abs n < 10 ^ int_max_str_digits.

(** The plan, once the nights and the traveler count have been
    formatted. *)
Definition checked_plan (payload : PlanRequest.t) (start end_ : date)
  (nights : Z) : result PlanResponse.t :=
  (_ <- format_int nights ;;
   _ <- format_int (PlanRequest.travelers payload) ;;
   Ok (plan_of payload start end_ nights))%result.

(** A traveler count of 4301 digits. *)
Definition crowd_request : PlanRequest.t :=
  PlanRequest.new "Paris"
    [ PlanRequest.Start_date (Some (ymd 2025 6 1));
      PlanRequest.End_date (Some (ymd 2025 6 4));
      PlanRequest.Travelers (10 ^ 4300) ].

(** The last two days there are. *)
Definition last_night_request : PlanRequest.t :=
  PlanRequest.new "Paris"
    [ PlanRequest.Start_date (Some (ymd 9999 12 30));
      PlanRequest.End_date (Some (ymd 9999 12 31)) ].

(** A destination that is one no-break space, U+00A0. *)
Definition nbsp_request : PlanRequest.t :=
  PlanRequest.new (String "194" (String "160" "")) [].

(** The last character of a string. *)
Fixpoint last_char (s : string) : option ascii :=
  match s with
  | EmptyString => None
  | String c EmptyString => Some c
  | String _ s' => last_char s'
  end.

(** [c in s]. *)
Fixpoint has_char (c : ascii) (s : string) : bool :=
  match s with
  | EmptyString => false
  | String c' s' => Ascii.eqb c c' || has_char c s'
  end.

(* ------------------------------------------------------------------ *)
(** ** Lists, loops and strings *)

Lemma range_from_In (n : nat) : forall lo x,
  In x (range_from lo n) <-> lo <= x < lo + Z.of_nat n.
Proof.
  induction n as [|n IH]; intros lo x; cbn [range_from In].
  - lia.
  - rewrite IH. lia.
Qed.

Lemma range_In (lo hi x : Z) : In x (range lo hi) <-> lo <= x < hi.
Proof.
  unfold range. rewrite range_from_In. lia.
Qed.

(** A loop whose every iteration appends [f x] to the accumulator
    appends the concatenation of all of them. *)
Lemma for_each_append {A B : Type} (f : A -> list B)
  (body : A -> list B -> result (list B)) (xs : list A) :
  (forall x acc, In x xs -> body x acc = Ok (acc ++ f x)%list) ->
  forall acc, for_each xs body acc = Ok (acc ++ flat_map f xs)%list.
Proof.
  induction xs as [|x xs IH]; intros Hbody acc; cbn [for_each flat_map].
  - now rewrite app_nil_r.
  - rewrite Hbody by (left; reflexivity).
    rewrite IH by (intros; apply Hbody; right; assumption).
    now rewrite app_assoc.
Qed.

Lemma getitem_nth {A : Type} (l : list A) (i : Z) (default : A) :
  0 <= i < len l -> getitem l i = Ok (nth (Z.to_nat i) l default).
Proof.
  intros Hi. unfold getitem, len in *.
  replace (i <? 0) with false by (symmetry; apply Z.ltb_ge; lia).
  replace ((0 <=? i) && (i <? Z.of_nat (List.length l))) with true
    by (symmetry; apply andb_true_iff; split;
        [apply Z.leb_le | apply Z.ltb_lt]; lia).
  destruct (nth_error l (Z.to_nat i)) as [a|] eqn:E.
  - now rewrite (nth_error_nth _ _ default E).
  - apply nth_error_None in E. lia.
Qed.

Lemma getitem_VENDORS (index : Z) :
  getitem VENDORS (index mod len VENDORS) = Ok (vendor_at index).
Proof.
  unfold vendor_at. apply getitem_nth.
  apply Z.mod_pos_bound. reflexivity.
Qed.

(* ------------------------------------------------------------------ *)
(** ** What the generator computes *)

Lemma format_int_ok (n : Z) : printable n -> format_int n = Ok (str_int n).
Proof.
  unfold printable, format_int. intros H.
  apply Z.ltb_lt in H. now rewrite H.
Qed.

Lemma format_int_raise (n : Z) :
  ~ printable n -> format_int n = Raise digits_exceeded.
Proof.
  unfold printable, format_int. intros H.
  apply Z.ltb_nlt in H. now rewrite H.
Qed.

Lemma format_int_cases (n : Z) :
  (printable n /\ format_int n = Ok (str_int n)) \/
  (~ printable n /\ format_int n = Raise digits_exceeded).
Proof.
  destruct (Z_lt_dec (Z.abs n) (10 ^ int_max_str_digits)) as [H|H].
  - left. split; [exact H | now apply format_int_ok].
  - right. split; [exact H | now apply format_int_raise].
Qed.

Lemma printable_le (a b : Z) : Z.abs a <= Z.abs b -> printable b -> printable a.
Proof.
  unfold printable. intros Hle Hb. eapply Z.le_lt_trans; eassumption.
Qed.

(** Seven digits are few enough. *)
Lemma printable_small (n : Z) : Z.abs n < 10 ^ 7 -> printable n.
Proof.
  unfold printable. intros H. eapply Z.lt_trans; [exact H|].
  apply Z.pow_lt_mono_r; [reflexivity | discriminate | reflexivity].
Qed.

Lemma hotel_iteration (dest : string) (nights i : Z)
  (acc : list ItineraryItem.t) :
  In i (range 0 2) ->
  printable nights ->
  ('(vendor_name, base) <- getitem VENDORS (i mod len VENDORS) ;;
   number <- format_int (i + 1) ;;
   let hotel_name := dest +++ " Boutique Hotel " +++ number in
   nights_text <- format_int nights ;;
   item <- ItineraryItem.new 1 hotel hotel_name
     [ Description (Some ("Centrally located stay for "
                          +++ nights_text +++ " nights."));
       Location (Some dest);
       Price (Some (float_of_int (145 + i * 35)));
       Currency (Some "USD");
       Link (Some (_mock_link base hotel_name));
       Available true;
       Vendor (Some vendor_name) ] ;;
   Ok (acc ++ [item])%list)%result
  = Ok (acc ++ [hotel_item dest nights (i + 1)])%list.
Proof.
  intros Hi Hnights.
  pose proof (format_int_ok nights Hnights) as Hf. revert Hf.
  generalize (format_int nights). intros r ->.
  destruct Hi as [<- | [<- | []]]; reflexivity.
Qed.

Lemma day_iteration (dest : string) (d : Z) (acc : list ItineraryItem.t) :
  1 <= d ->
  printable d ->
  ('(vendor_name, base) <- getitem VENDORS ((d + 2) mod len VENDORS) ;;
   day_text <- format_int d ;;
   let act_title := "Guided walking tour - Day " +++ day_text in
   item <- ItineraryItem.new d activity act_title
     [ Description
         (Some "Highly rated experience with instant confirmation.");
       Location (Some dest);
       Price (Some 39.0%float);
       Currency (Some "USD");
       Link (Some (_mock_link base (dest +++ " walking tour")));
       Available true;
       Vendor (Some vendor_name);
       Start_time (Some "10:00");
       End_time (Some "12:00") ] ;;
   let items := (acc ++ [item])%list in
   day_text <- format_int d ;;
   let rest_title := "Cozy local restaurant - Day " +++ day_text in
   item <- ItineraryItem.new d restaurant rest_title
     [ Description (Some "Loved by locals. Reserve a table online.");
       Location (Some dest);
       Price None;
       Link (Some (_mock_link "https://www.opentable.com"
                     (dest +++ " dinner")));
       Available true;
       Vendor (Some "OpenTable");
       Start_time (Some "19:30") ] ;;
   Ok (items ++ [item])%list)%result
  = Ok (acc ++ day_items dest d)%list.
Proof.
  intros Hd Hprint.
  pose proof (format_int_ok d Hprint) as Hf. revert Hf.
  generalize (format_int d). intros r ->.
  rewrite getitem_VENDORS.
  destruct (vendor_at (d + 2)) as [vendor_name base] eqn:E.
  unfold day_items, activity_item, restaurant_item.
  rewrite E.
  unfold rbind, ItineraryItem.new.
  cbn [fold_left ItineraryItem.set ItineraryItem.defaults ItineraryItem.day
       fst snd].
  replace (1 <=? d) with true by (symmetry; apply Z.leb_le; exact Hd).
  now rewrite <- app_assoc.
Qed.

Lemma summary_text_eq (payload : PlanRequest.t) (nights : Z) :
  ("Personalized " +++ str_int nights +++ "-night plan for "
     +++ PlanRequest.destination payload +++ ". "
     +++ "Optimized for " +++ str_int (PlanRequest.travelers payload)
     +++ " traveler(s)")
  +++ (match PlanRequest.style payload with
       | Some s => if truthy s then " with a " +++ s +++ " vibe" else ""
       | None => ""
       end)
  +++ (match PlanRequest.budget payload with
       | Some b => if truthy b then " and " +++ b +++ " budget." else "."
       | None => "."
       end)
  = summary_text payload nights.
Proof.
  unfold summary_text, truthy_opt.
  destruct (PlanRequest.style payload) as [s|],
           (PlanRequest.budget payload) as [b|]; reflexivity.
Qed.

(** The days of a plan print when its nights do. *)
Lemma day_printable (nights d : Z) :
  printable nights -> In d (range 1 (nights + 1)) -> 1 <= d /\ printable d.
Proof.
  intros Hn Hd. apply range_In in Hd. split; [lia|].
  apply (printable_le d nights); [lia | exact Hn].
Qed.

(** Both loops of the generator and the summary, run one after the
    other, for nights that print. *)
Ltac run_loops payload nights Hnights :=
  rewrite (for_each_append
             (fun i => [hotel_item (PlanRequest.destination payload)
                          nights (i + 1)]))
    by (intros; apply hotel_iteration; assumption);
  rewrite (for_each_append (day_items (PlanRequest.destination payload)))
    by (intros d acc Hd; apply day_iteration;
        apply (day_printable nights d Hnights Hd));
  unfold checked_plan;
  rewrite (format_int_ok nights Hnights);
  cbn [rbind];
  destruct (format_int_cases (PlanRequest.travelers payload))
    as [[_ ->] | [_ ->]];
  [rewrite summary_text_eq; reflexivity | reflexivity].

(** The same, for nights that do not print: the first hotel fails. *)
Ltac fail_loops nights Hnights :=
  pose proof (format_int_raise nights Hnights) as Hf; revert Hf;
  unfold checked_plan;
  generalize (format_int nights); intros r ->;
  reflexivity.

(** The generator is the date resolution followed by the closed form of
    the plan, once nights and travelers are formatted, and it hands the
    world back as it got it. *)
Lemma generate_run (payload : PlanRequest.t) (w : World) :
  _generate_mock_plan payload w =
  (('(start, end_, nights) <- resolve_dates (clock w) payload ;;
    checked_plan payload start end_ nights)%result, w).
Proof.
  unfold _generate_mock_plan, resolve_dates, bind, date_today, lift, ret.
  destruct (or_else (PlanRequest.start_date payload) _) as [start|e];
    [|reflexivity].
  cbn [rbind].
  destruct (or_else (PlanRequest.end_date payload) _) as [end_|e];
    [|reflexivity].
  cbn [rbind].
  destruct (date_sub_days end_ start <=? 0).
  - destruct (date_add start (timedelta 4)) as [end'|e]; [|reflexivity].
    cbn [rbind].
    destruct (Z_lt_dec (Z.abs (date_sub_days end' start))
                       (10 ^ int_max_str_digits)) as [Hn|Hn].
    + run_loops payload (date_sub_days end' start) Hn.
    + fail_loops (date_sub_days end' start) Hn.
  - cbn [rbind].
    destruct (Z_lt_dec (Z.abs (date_sub_days end_ start))
                       (10 ^ int_max_str_digits)) as [Hn|Hn].
    + run_loops payload (date_sub_days end_ start) Hn.
    + fail_loops (date_sub_days end_ start) Hn.
Qed.

Lemma checked_plan_inv (payload : PlanRequest.t) (start end_ : date)
  (nights : Z) (resp : PlanResponse.t) :
  checked_plan payload start end_ nights = Ok resp ->
  resp = plan_of payload start end_ nights /\
  printable nights /\ printable (PlanRequest.travelers payload).
Proof.
  unfold checked_plan.
  destruct (format_int_cases nights) as [[Hn ->] | [_ ->]];
    cbn [rbind]; [|discriminate].
  destruct (format_int_cases (PlanRequest.travelers payload))
    as [[Ht ->] | [_ ->]]; cbn [rbind]; [|discriminate].
  intros H. inversion H. auto.
Qed.


Lemma generate_inv (payload : PlanRequest.t) (w w' : World)
  (resp : PlanResponse.t) :
  _generate_mock_plan payload w = (Ok resp, w') ->
  w' = w /\
  exists start end_ nights,
    resolve_dates (clock w) payload = Ok (start, end_, nights) /\
    resp = plan_of payload start end_ nights.
Proof.
  rewrite generate_run.
  destruct (resolve_dates (clock w) payload) as [[[start end_] nights]|e];
    cbn [rbind]; intros H; inversion H as [[Hplan Hw]]; subst w'.
  split; [reflexivity|]. exists start, end_, nights.
  split; [reflexivity|]. now apply checked_plan_inv in Hplan.
Qed.

(** A request that got a plan had a traveler count that prints. *)
Lemma generate_inv_printable (payload : PlanRequest.t) (w w' : World)
  (resp : PlanResponse.t) :
  _generate_mock_plan payload w = (Ok resp, w') ->
  printable (PlanRequest.travelers payload).
Proof.
  rewrite generate_run.
  destruct (resolve_dates (clock w) payload) as [[[start end_] nights]|e];
    cbn [rbind]; intros H; inversion H as [[Hplan Hw]].
  now apply checked_plan_inv in Hplan.
Qed.


(* ------------------------------------------------------------------ *)
(** ** Date resolution *)

Lemma date_add_ok (d : date) (days : Z) :
  1 <= toordinal d + days <= _MAXORDINAL ->
  date_add d days = Ok (fromordinal (toordinal d + days)).
Proof.
  intros H. unfold date_add.
  replace ((0 <? toordinal d + days) && (toordinal d + days <=? _MAXORDINAL))
    with true; [reflexivity|].
  symmetry. apply andb_true_iff. split; [apply Z.ltb_lt | apply Z.leb_le]; lia.
Qed.

Lemma date_add_inv (d r : date) (days : Z) :
  date_add d days = Ok r ->
  toordinal r = toordinal d + days /\ 1 <= toordinal r <= _MAXORDINAL.
Proof.
  unfold date_add.
  destruct ((0 <? toordinal d + days) && (toordinal d + days <=? _MAXORDINAL))
    eqn:E; [|discriminate].
  intros H. inversion H; subst; cbn [toordinal].
  apply andb_true_iff in E. destruct E as [E1 E2].
  apply Z.ltb_lt in E1. apply Z.leb_le in E2. lia.
Qed.

Lemma date_add_overflow (d : date) (days : Z) :
  _MAXORDINAL < toordinal d + days ->
  date_add d days = Raise (OverflowError "date value out of range").
Proof.
  intros H. unfold date_add.
  replace (toordinal d + days <=? _MAXORDINAL) with false
    by (symmetry; apply Z.leb_gt; exact H).
  now rewrite andb_false_r.
Qed.

Lemma date_eq (a b : date) : toordinal a = toordinal b -> a = b.
Proof.
  destruct a, b; cbn. now intros ->.
Qed.

(** The start date: the one supplied, or today + 14 days. *)
Lemma resolve_start (w : World) (payload : PlanRequest.t) :
  1 <= start_ord w payload <= _MAXORDINAL ->
  or_else (PlanRequest.start_date payload)
          (date_add (clock w) (timedelta 14))
  = Ok (fromordinal (start_ord w payload)).
Proof.
  unfold start_ord, or_else, timedelta.
  destruct (PlanRequest.start_date payload) as [s|]; intros H.
  - now destruct s.
  - now apply date_add_ok.
Qed.

Lemma resolve_start_inv (w : World) (payload : PlanRequest.t) (start : date) :
  or_else (PlanRequest.start_date payload)
          (date_add (clock w) (timedelta 14)) = Ok start ->
  toordinal start = start_ord w payload.
Proof.
  unfold start_ord, or_else, timedelta.
  destruct (PlanRequest.start_date payload) as [s|]; intros H.
  - now inversion H.
  - now apply date_add_inv in H.
Qed.

(** No end date, or one that is not after the start: four nights. *)
Lemma resolve_dates_four (w : World) (payload : PlanRequest.t) :
  1 <= start_ord w payload ->
  start_ord w payload + 4 <= _MAXORDINAL ->
  match PlanRequest.end_date payload with
  | Some e => toordinal e <= start_ord w payload
  | None => True
  end ->
  resolve_dates (clock w) payload =
  Ok (fromordinal (start_ord w payload),
      fromordinal (start_ord w payload + 4), 4).
Proof.
  intros H1 H4 Hend. unfold resolve_dates.
  rewrite resolve_start by lia. cbn [rbind].
  set (s := start_ord w payload) in *.
  assert (Hadd : date_add (fromordinal s) (timedelta 4)
                 = Ok (fromordinal (s + 4)))
    by (apply date_add_ok; cbn [toordinal]; unfold timedelta; lia).
  assert (Hsub : date_sub_days (fromordinal (s + 4)) (fromordinal s) = 4)
    by (unfold date_sub_days; cbn [toordinal]; lia).
  destruct (PlanRequest.end_date payload) as [e|]; cbn [or_else rbind].
  - replace (date_sub_days e (fromordinal s) <=? 0) with true
      by (symmetry; apply Z.leb_le; unfold date_sub_days;
          cbn [toordinal]; lia).
    rewrite Hadd. cbn [rbind]. now rewrite Hsub.
  - rewrite Hadd. cbn [rbind]. rewrite Hsub. reflexivity.
Qed.

(** An end date after the start: it is kept. *)
Lemma resolve_dates_kept (w : World) (payload : PlanRequest.t) (e : date) :
  1 <= start_ord w payload <= _MAXORDINAL ->
  PlanRequest.end_date payload = Some e ->
  start_ord w payload < toordinal e ->
  resolve_dates (clock w) payload =
  Ok (fromordinal (start_ord w payload), e,
      toordinal e - start_ord w payload).
Proof.
  intros H1 He Hlt. unfold resolve_dates.
  rewrite resolve_start by lia. rewrite He. cbn [or_else rbind].
  unfold date_sub_days. cbn [toordinal].
  replace (toordinal e - start_ord w payload <=? 0) with false
    by (symmetry; apply Z.leb_gt; lia).
  reflexivity.
Qed.

(** What a successful date resolution returned. *)
Lemma resolve_dates_inv (w : World) (payload : PlanRequest.t)
  (start end_ : date) (nights : Z) :
  resolve_dates (clock w) payload = Ok (start, end_, nights) ->
  toordinal start = start_ord w payload /\
  nights = toordinal end_ - toordinal start /\
  1 <= nights /\
  match PlanRequest.end_date payload with
  | Some e =>
      if toordinal start <? toordinal e then end_ = e
      else toordinal end_ = toordinal start + 4
  | None => toordinal end_ = toordinal start + 4
  end.
Proof.
  unfold resolve_dates.
  destruct (or_else (PlanRequest.start_date payload) _) as [s|x] eqn:Es;
    [|discriminate].
  apply resolve_start_inv in Es. cbn [rbind].
  destruct (PlanRequest.end_date payload) as [e|]; cbn [or_else rbind].
  - unfold date_sub_days.
    destruct (toordinal e - toordinal s <=? 0) eqn:E.
    + apply Z.leb_le in E.
      destruct (date_add s (timedelta 4)) as [e'|x] eqn:Ea; [|discriminate].
      apply date_add_inv in Ea. unfold timedelta in Ea. cbn [rbind].
      intros H. inversion H; subst.
      replace (toordinal start <? toordinal e) with false
        by (symmetry; apply Z.ltb_ge; lia).
      lia.
    + apply Z.leb_gt in E. intros H. inversion H; subst.
      replace (toordinal start <? toordinal end_) with true
        by (symmetry; apply Z.ltb_lt; lia).
      repeat split; try lia.
  - destruct (date_add s (timedelta 4)) as [e'|x] eqn:Ea; [|discriminate].
    apply date_add_inv in Ea. unfold timedelta in Ea. cbn [rbind].
    unfold date_sub_days.
    destruct (toordinal e' - toordinal s <=? 0) eqn:E.
    + apply Z.leb_le in E. lia.
    + intros H. inversion H; subst. lia.
Qed.

(* ------------------------------------------------------------------ *)
(** ** The items of a plan *)

Lemma plan_items_In (dest : string) (nights : Z) (it : ItineraryItem.t) :
  In it (plan_items dest nights) <->
  it = hotel_item dest nights 1 \/ it = hotel_item dest nights 2 \/
  exists d, 1 <= d <= nights /\
            (it = activity_item dest d \/ it = restaurant_item dest d).
Proof.
  unfold plan_items. cbn [In]. rewrite in_flat_map.
  split.
  - intros [H | [H | [d [Hd Hin]]]]; [now left | now right; left |].
    right; right. exists d. apply range_In in Hd.
    cbn in Hin. destruct Hin as [H | [H | []]]; split; try lia; auto.
  - intros [H | [H | [d [Hd Hin]]]]; [now left | now right; left |].
    right; right. exists d. split; [apply range_In; lia|].
    cbn. destruct Hin as [H | H]; auto.
Qed.

Lemma days_length (dest : string) (n : nat) : forall lo,
  List.length (flat_map (day_items dest) (range_from lo n)) = (2 * n)%nat.
Proof.
  induction n as [|n IH]; intros lo; cbn [range_from flat_map].
  - reflexivity.
  - cbn [day_items app List.length]. rewrite IH. lia.
Qed.

Lemma plan_items_length (dest : string) (nights : Z) :
  0 <= nights -> len (plan_items dest nights) = 2 + 2 * nights.
Proof.
  intros H. unfold len, plan_items, range. cbn [List.length].
  rewrite days_length. lia.
Qed.

Lemma items_on_day_items (k : ItineraryItem.kind) (dest : string) (d x : Z) :
  items_on k d (day_items dest x) = if x =? d then pick k dest d else [].
Proof.
  unfold items_on, day_items. cbn [filter activity_item restaurant_item
    ItineraryItem.type ItineraryItem.day].
  destruct (x =? d) eqn:E.
  - apply Z.eqb_eq in E. subst x. destruct k; reflexivity.
  - rewrite !andb_false_r. reflexivity.
Qed.

Lemma items_on_days (k : ItineraryItem.kind) (dest : string) (d : Z)
  (n : nat) : forall lo,
  items_on k d (flat_map (day_items dest) (range_from lo n)) =
  if (lo <=? d) && (d <? lo + Z.of_nat n) then pick k dest d else [].
Proof.
  induction n as [|n IH]; intros lo; cbn [range_from flat_map].
  - replace (d <? lo + Z.of_nat 0) with (d <? lo) by (f_equal; lia).
    destruct (lo <=? d) eqn:E1, (d <? lo) eqn:E2; try reflexivity.
    apply Z.leb_le in E1. apply Z.ltb_lt in E2. lia.
  - unfold items_on in *. rewrite filter_app.
    fold (items_on k d (day_items dest lo)).
    rewrite items_on_day_items, IH.
    destruct (lo =? d) eqn:E.
    + apply Z.eqb_eq in E. subst lo.
      replace (d + 1 <=? d) with false by (symmetry; apply Z.leb_gt; lia).
      replace ((d <=? d) && (d <? d + Z.of_nat (S n))) with true
        by (symmetry; apply andb_true_iff; split;
            [apply Z.leb_le | apply Z.ltb_lt]; lia).
      cbn [andb]. now rewrite app_nil_r.
    + apply Z.eqb_neq in E. cbn [app].
      replace ((lo + 1 <=? d) && (d <? lo + 1 + Z.of_nat n))
        with ((lo <=? d) && (d <? lo + Z.of_nat (S n))); [reflexivity|].
      apply eq_true_iff_eq. rewrite !andb_true_iff, !Z.leb_le, !Z.ltb_lt.
      lia.
Qed.

Lemma items_on_plan (k : ItineraryItem.kind) (dest : string)
  (nights d : Z) :
  k = activity \/ k = restaurant ->
  1 <= d <= nights ->
  items_on k d (plan_items dest nights) = pick k dest d.
Proof.
  intros Hk Hd. unfold plan_items, range.
  assert (Hdays := items_on_days k dest d (Z.to_nat (nights + 1 - 1)) 1).
  replace ((1 <=? d) && (d <? 1 + Z.of_nat (Z.to_nat (nights + 1 - 1))))
    with true in Hdays
    by (symmetry; apply andb_true_iff; split;
        [apply Z.leb_le | apply Z.ltb_lt]; lia).
  unfold items_on in *. cbn [filter hotel_item ItineraryItem.type].
  destruct Hk as [-> | ->]; cbn [kind_eqb andb]; exact Hdays.
Qed.

Lemma hotels_of_days (dest : string) (n : nat) : forall lo,
  items_of_kind hotel (flat_map (day_items dest) (range_from lo n)) = [].
Proof.
  induction n as [|n IH]; intros lo; cbn [range_from flat_map].
  - reflexivity.
  - unfold items_of_kind in *. rewrite filter_app, IH. reflexivity.
Qed.

Lemma hotels_of_plan (dest : string) (nights : Z) :
  items_of_kind hotel (plan_items dest nights) =
  [hotel_item dest nights 1; hotel_item dest nights 2].
Proof.
  unfold plan_items, range, items_of_kind.
  cbn [filter hotel_item ItineraryItem.type kind_eqb].
  fold (items_of_kind hotel
          (flat_map (day_items dest)
             (range_from 1 (Z.to_nat (nights + 1 - 1))))).
  now rewrite hotels_of_days.
Qed.

(* ------------------------------------------------------------------ *)
(** ** Link construction *)

Lemma replace_length (old new : ascii) (s : string) :
  String.length (replace old new s) = String.length s.
Proof.
  induction s as [|c s IH]; cbn; [reflexivity | now rewrite IH].
Qed.

Lemma replace_get (old new : ascii) (s : string) : forall i : nat,
  String.get i (replace old new s) =
  option_map (fun c => if Ascii.eqb c old then new else c) (String.get i s).
Proof.
  induction s as [|c s IH]; intros i; cbn [replace String.get].
  - reflexivity.
  - destruct i as [|i]; [reflexivity | apply IH].
Qed.

Lemma replace_append (old new : ascii) (a b : string) :
  replace old new (a +++ b) = replace old new a +++ replace old new b.
Proof.
  induction a as [|c a IH]; cbn; [reflexivity | now rewrite IH].
Qed.

Lemma prefix_single (c : ascii) (s : string) :
  String.prefix (String c EmptyString) s =
  match s with
  | EmptyString => false
  | String c' _ => Ascii.eqb c c'
  end.
Proof.
  destruct s as [|c' s]; cbn; [reflexivity|].
  destruct (ascii_dec c c') as [->|N].
  - rewrite Ascii.eqb_refl. now destruct s.
  - symmetry. now apply Ascii.eqb_neq.
Qed.

(** A string without the old character is left as it is. *)
Lemma replace_absent (old new : ascii) (s : string) :
  contains (String old EmptyString) s = false -> replace old new s = s.
Proof.
  induction s as [|c s IH]; [reflexivity|].
  cbn [contains]. rewrite prefix_single. intros H.
  apply orb_false_iff in H. destruct H as [Hc Hs].
  cbn [replace]. rewrite (Ascii.eqb_sym c old), Hc. now rewrite IH.
Qed.

Lemma truthy_true (s : string) : truthy s = true <-> s <> "".
Proof.
  destruct s; cbn; split; congruence.
Qed.

(* ------------------------------------------------------------------ *)
(** ** The plan endpoint *)

(** The only exception the date resolution can raise. *)
Lemma resolve_dates_raise (today : date) (payload : PlanRequest.t) (e : exn) :
  resolve_dates today payload = Raise e ->
  e = OverflowError "date value out of range".
Proof.
  assert (Hadd : forall d n x, date_add d n = Raise x ->
                   x = OverflowError "date value out of range").
  { intros d n x. unfold date_add.
    destruct ((0 <? toordinal d + n) && (toordinal d + n <=? _MAXORDINAL));
      intros H; inversion H; reflexivity. }
  unfold resolve_dates.
  destruct (PlanRequest.start_date payload) as [s|]; cbn [or_else rbind].
  - destruct (PlanRequest.end_date payload) as [e'|]; cbn [or_else rbind].
    + destruct (date_sub_days e' s <=? 0); [|discriminate].
      destruct (date_add s (timedelta 4)) eqn:E; cbn [rbind];
        [discriminate|].
      intros H. inversion H; subst. eapply Hadd, E.
    + destruct (date_add s (timedelta 4)) as [e'|x] eqn:E; cbn [rbind].
      * destruct (date_sub_days e' s <=? 0); discriminate.
      * intros H. inversion H; subst. eapply Hadd, E.
  - destruct (date_add today (timedelta 14)) as [s|x] eqn:Es; cbn [rbind].
    + destruct (PlanRequest.end_date payload) as [e'|]; cbn [or_else rbind].
      * destruct (date_sub_days e' s <=? 0); [|discriminate].
        destruct (date_add s (timedelta 4)) eqn:E; cbn [rbind];
          [discriminate|].
        intros H. inversion H; subst. eapply Hadd, E.
      * destruct (date_add s (timedelta 4)) as [e'|x] eqn:E; cbn [rbind].
        -- destruct (date_sub_days e' s <=? 0); discriminate.
        -- intros H. inversion H; subst. eapply Hadd, E.
    + intros H. inversion H; subst. eapply Hadd, Es.
Qed.

Lemma checked_plan_raise (payload : PlanRequest.t) (start end_ : date)
  (nights : Z) (e : exn) :
  checked_plan payload start end_ nights = Raise e -> e = digits_exceeded.
Proof.
  unfold checked_plan.
  destruct (format_int_cases nights) as [[_ ->] | [_ ->]]; cbn [rbind];
    [|intros H; now inversion H].
  destruct (format_int_cases (PlanRequest.travelers payload))
    as [[_ ->] | [_ ->]]; cbn [rbind]; intros H; now inversion H.
Qed.

(** The two exceptions the generator can raise. *)
Lemma generate_raise (payload : PlanRequest.t) (w : World) (e : exn) :
  fst (_generate_mock_plan payload w) = Raise e ->
  e = OverflowError "date value out of range" \/ e = digits_exceeded.
Proof.
  rewrite generate_run. cbn [fst].
  destruct (resolve_dates (clock w) payload) as [[[start end_] nights]|x]
    eqn:E; cbn [rbind].
  - intros H. right. eapply checked_plan_raise, H.
  - intros H. inversion H; subst. left. eapply resolve_dates_raise, E.
Qed.

Lemma plan_trip_empty (payload : PlanRequest.t) (w : World) :
  PlanRequest.destination payload = "" ->
  plan_trip payload w =
  (Raise (HTTPException 400 "Destination is required"), w).
Proof.
  intros H. unfold plan_trip. rewrite H. reflexivity.
Qed.

Lemma plan_trip_nonempty (payload : PlanRequest.t) (w : World) :
  PlanRequest.destination payload <> "" ->
  plan_trip payload w = _generate_mock_plan payload w.
Proof.
  intros H. apply truthy_true in H. unfold plan_trip. rewrite H.
  cbn [negb]. unfold bind, ret.
  destruct (_generate_mock_plan payload w) as [[resp|e] w']; reflexivity.
Qed.

Lemma start_ord_pos (payload : PlanRequest.t) (w : World) :
  valid_date (clock w) -> valid_request payload -> 1 <= start_ord w payload.
Proof.
  unfold valid_request, valid_opt, valid_date, start_ord.
  intros Hclock [Hstart _].
  destruct (PlanRequest.start_date payload) as [s|]; lia.
Qed.

(** The generator returns whenever the start date and the date four days
    after it are dates. *)
Lemma generate_total (payload : PlanRequest.t) (w : World) :
  1 <= start_ord w payload ->
  start_ord w payload + 4 <= _MAXORDINAL ->
  exists end_ nights,
    resolve_dates (clock w) payload =
    Ok (fromordinal (start_ord w payload), end_, nights).
Proof.
  intros H1 H4.
  destruct (PlanRequest.end_date payload) as [e|] eqn:Ee.
  - destruct (Z_lt_le_dec (start_ord w payload) (toordinal e)) as [Hlt|Hle].
    + eexists _, _. apply resolve_dates_kept; [lia | exact Ee | exact Hlt].
    + eexists _, _. apply resolve_dates_four; [lia | lia |].
      rewrite Ee. exact Hle.
  - eexists _, _. apply resolve_dates_four; [lia | lia |].
    now rewrite Ee.
Qed.

(** It raises when it has to put the end date four days after the start
    date and that day is past [date.max]. *)
Lemma generate_overflow (payload : PlanRequest.t) (w : World) :
  1 <= start_ord w payload <= _MAXORDINAL ->
  _MAXORDINAL < start_ord w payload + 4 ->
  match PlanRequest.end_date payload with
  | Some e => toordinal e <= start_ord w payload
  | None => True
  end ->
  _generate_mock_plan payload w =
  (Raise (OverflowError "date value out of range"), w).
Proof.
  intros H1 H4 Hend. rewrite generate_run. unfold resolve_dates.
  rewrite resolve_start by exact H1. cbn [rbind].
  assert (Hadd : date_add (fromordinal (start_ord w payload)) (timedelta 4)
                 = Raise (OverflowError "date value out of range"))
    by (apply date_add_overflow; exact H4).
  destruct (PlanRequest.end_date payload) as [e|]; cbn [or_else rbind].
  - replace (date_sub_days e (fromordinal (start_ord w payload)) <=? 0)
      with true
      by (symmetry; apply Z.leb_le; unfold date_sub_days;
          cbn [toordinal]; lia).
    now rewrite Hadd.
  - now rewrite Hadd.
Qed.

(** Run twice in a row, the generator answers twice the same. *)
Lemma generate_twice (payload : PlanRequest.t) (w : World) :
  (r1 <- _generate_mock_plan payload ;;
   r2 <- _generate_mock_plan payload ;;
   ret (r1, r2))%monad w =
  (r <- _generate_mock_plan payload ;; ret (r, r))%monad w.
Proof.
  unfold bind, ret. rewrite generate_run.
  destruct (resolve_dates (clock w) payload) as [[[start end_] nights]|e]
    eqn:E; cbn [rbind]; [|reflexivity].
  destruct (checked_plan payload start end_ nights) as [resp|e] eqn:Ec;
    [|reflexivity].
  rewrite generate_run, E. cbn [rbind]. rewrite Ec. reflexivity.
Qed.


(** For dates that are dates, the date resolution returns when the dates
    resolve and raises when they overflow, and one of the two is the
    case. *)
Lemma resolve_dates_valid (payload : PlanRequest.t) (w : World) :
  valid_date (clock w) ->
  valid_request payload ->
  (dates_resolve w payload /\
   exists end_ nights,
     resolve_dates (clock w) payload
       = Ok (fromordinal (start_ord w payload), end_, nights) /\
     printable nights) \/
  (date_overflows w payload /\
   resolve_dates (clock w) payload
     = Raise (OverflowError "date value out of range")).
Proof.
  intros Hclock Hreq.
  assert (H1 := start_ord_pos payload w Hclock Hreq).
  unfold dates_resolve, date_overflows, needs_fourth_day.
  destruct (PlanRequest.end_date payload) as [e|] eqn:Ee.
  - destruct (Z_lt_le_dec (start_ord w payload) (toordinal e)) as [Hlt|Hle].
    + left. split; [lia|].
      assert (He : valid_date e).
      { destruct Hreq as [_ He]. now rewrite Ee in He. }
      unfold valid_date in He.
      exists e, (toordinal e - start_ord w payload).
      split; [apply resolve_dates_kept; [lia | exact Ee | exact Hlt]|].
      apply printable_small. unfold _MAXORDINAL in He. lia.
    + destruct (Z_lt_le_dec _MAXORDINAL (start_ord w payload + 4))
        as [Hover|Hok].
      * right. split; [split; assumption|].
        destruct (Z_lt_le_dec _MAXORDINAL (start_ord w payload))
          as [Hbig|Hfit].
        -- unfold resolve_dates, start_ord in *. destruct Hreq as [Hs _].
           destruct (PlanRequest.start_date payload) as [s|]; cbn [or_else].
           ++ unfold valid_opt, valid_date in Hs. lia.
           ++ rewrite date_add_overflow by (unfold timedelta; exact Hbig).
              reflexivity.
        -- assert (Hrun := generate_overflow payload w (conj H1 Hfit) Hover).
           rewrite Ee in Hrun. specialize (Hrun Hle).
           rewrite generate_run in Hrun.
           destruct (resolve_dates (clock w) payload)
             as [[[s' e'] n']|x] eqn:Er; cbn [rbind] in Hrun.
           ++ inversion Hrun as [Hc].
              apply checked_plan_raise in Hc. discriminate Hc.
           ++ now inversion Hrun.
      * left. split; [intros _; exact Hok|].
        exists (fromordinal (start_ord w payload + 4)), 4.
        split; [|apply printable_small; reflexivity].
        apply resolve_dates_four; [lia | lia |]. rewrite Ee. exact Hle.
  - destruct (Z_lt_le_dec _MAXORDINAL (start_ord w payload + 4))
      as [Hover|Hok].
    + right. split; [split; [exact I | assumption]|].
      destruct (Z_lt_le_dec _MAXORDINAL (start_ord w payload))
        as [Hbig|Hfit].
      * unfold resolve_dates, start_ord in *. destruct Hreq as [Hs _].
        destruct (PlanRequest.start_date payload) as [s|]; cbn [or_else].
        -- unfold valid_opt, valid_date in Hs. lia.
        -- rewrite date_add_overflow by (unfold timedelta; exact Hbig).
           reflexivity.
      * assert (Hrun := generate_overflow payload w (conj H1 Hfit) Hover).
        rewrite Ee in Hrun. specialize (Hrun I).
        rewrite generate_run in Hrun.
        destruct (resolve_dates (clock w) payload)
          as [[[s' e'] n']|x] eqn:Er; cbn [rbind] in Hrun.
        -- inversion Hrun as [Hc].
           apply checked_plan_raise in Hc. discriminate Hc.
        -- now inversion Hrun.
    + left. split; [intros _; exact Hok|].
      exists (fromordinal (start_ord w payload + 4)), 4.
      split; [|apply printable_small; reflexivity].
      apply resolve_dates_four; [lia | lia |]. now rewrite Ee.
Qed.

Lemma resolve_or_overflow (payload : PlanRequest.t) (w : World) :
  dates_resolve w payload -> date_overflows w payload -> False.
Proof.
  unfold dates_resolve, date_overflows. intros Hres [Hneeds Hover].
  specialize (Hres Hneeds). lia.
Qed.

(** The three outcomes of the generator on dates that are dates. *)
Lemma generate_cases (payload : PlanRequest.t) (w : World) :
  valid_date (clock w) ->
  valid_request payload ->
  (date_overflows w payload /\
   _generate_mock_plan payload w
     = (Raise (OverflowError "date value out of range"), w)) \/
  (dates_resolve w payload /\
   ~ printable (PlanRequest.travelers payload) /\
   _generate_mock_plan payload w = (Raise digits_exceeded, w)) \/
  (dates_resolve w payload /\
   printable (PlanRequest.travelers payload) /\
   exists end_ nights,
     resolve_dates (clock w) payload
       = Ok (fromordinal (start_ord w payload), end_, nights) /\
     _generate_mock_plan payload w
       = (Ok (plan_of payload (fromordinal (start_ord w payload))
                end_ nights), w)).
Proof.
  intros Hclock Hreq. rewrite generate_run.
  destruct (resolve_dates_valid payload w Hclock Hreq)
    as [(Hres & end_ & nights & -> & Hn) | (Hover & ->)].
  - right. cbn [rbind]. unfold checked_plan.
    rewrite (format_int_ok nights Hn). cbn [rbind].
    destruct (format_int_cases (PlanRequest.travelers payload))
      as [[Ht ->] | [Ht ->]]; cbn [rbind].
    + right. split; [exact Hres|]. split; [exact Ht|].
      now exists end_, nights.
    + left. auto.
  - left. auto.
Qed.

(** For dates that are dates, the generator returns a plan exactly when
    the dates resolve and the traveler count prints. *)
Lemma generate_returns_iff (payload : PlanRequest.t) (w : World) :
  valid_date (clock w) ->
  valid_request payload ->
  (exists resp, _generate_mock_plan payload w = (Ok resp, w)) <->
  dates_resolve w payload /\ printable (PlanRequest.travelers payload).
Proof.
  intros Hclock Hreq.
  destruct (generate_cases payload w Hclock Hreq)
    as [(Hover & Hrun) | [(Hres & Ht & Hrun) | (Hres & Ht & e & n & _ & Hrun)]];
    rewrite Hrun; split.
  - intros [resp H]. discriminate H.
  - intros [Hres _]. elim (resolve_or_overflow payload w Hres Hover).
  - intros [resp H]. discriminate H.
  - intros [_ Hp]. contradiction.
  - auto.
  - intros _. eexists. reflexivity.
Qed.

(** What the dates of a returned plan are. *)
Lemma returned_dates (payload : PlanRequest.t) (w w' : World)
  (resp : PlanResponse.t) :
  _generate_mock_plan payload w = (Ok resp, w') ->
  (PlanRequest.start_date payload = None ->
   toordinal (PlanResponse.start_date resp) = toordinal (clock w) + 14) /\
  (forall s, PlanRequest.start_date payload = Some s ->
   PlanResponse.start_date resp = s) /\
  (PlanRequest.end_date payload = None ->
   toordinal (PlanResponse.end_date resp)
     = toordinal (PlanResponse.start_date resp) + 4 /\
   PlanResponse.nights resp = 4) /\
  (forall e, PlanRequest.end_date payload = Some e ->
   toordinal e <= toordinal (PlanResponse.start_date resp) ->
   toordinal (PlanResponse.end_date resp)
     = toordinal (PlanResponse.start_date resp) + 4 /\
   PlanResponse.nights resp = 4) /\
  (forall e, PlanRequest.end_date payload = Some e ->
   toordinal (PlanResponse.start_date resp) < toordinal e ->
   PlanResponse.end_date resp = e /\
   PlanResponse.nights resp
     = toordinal e - toordinal (PlanResponse.start_date resp)).
Proof.
  intros Hrun.
  destruct (generate_inv _ _ _ _ Hrun)
    as (_ & start & end_ & nights & Hres & ->).
  destruct (resolve_dates_inv _ _ _ _ _ Hres) as (Hs & Hn & _ & Hend).
  cbn [plan_of PlanResponse.start_date PlanResponse.end_date
       PlanResponse.nights] in *.
  split; [|split; [|split; [|split]]].
  - unfold start_ord in Hs. intros Hnone. now rewrite Hnone in Hs.
  - unfold start_ord in Hs. intros s Hsome. rewrite Hsome in Hs.
    now apply date_eq.
  - intros Hnone. rewrite Hnone in Hend. lia.
  - intros e Hsome Hle. rewrite Hsome in Hend.
    replace (toordinal start <? toordinal e) with false in Hend
      by (symmetry; apply Z.ltb_ge; exact Hle).
    lia.
  - intros e Hsome Hlt. rewrite Hsome in Hend.
    replace (toordinal start <? toordinal e) with true in Hend
      by (symmetry; apply Z.ltb_lt; exact Hlt).
    subst end_. split; [reflexivity | lia].
Qed.

(* ------------------------------------------------------------------ *)
(** ** Date resolution of the generator *)

(** C1 (as amended): for every request whose dates are dates, the
    generator returns a plan exactly when the traveler count prints (it
    has at most 4300 digits) and the dates resolve, that is, when the
    date four days after the start date (the one supplied, or today + 14
    days when absent) is no later than 9999-12-31 wherever the generator
    has to compute it: for a request with no end date or with one that is
    not strictly after the start date. In every plan it returns, the
    start date is today + 14 days when the request has none and the
    supplied one otherwise; when the request has no end date, or one that
    is not strictly after the start date, the end date is the start date
    + 4 days and the number of nights is exactly 4; a supplied end date
    strictly after the start date is kept. *)
Theorem date_resolution (payload : PlanRequest.t) (w : World) :
  valid_date (clock w) ->
  valid_request payload ->
  ((exists resp, _generate_mock_plan payload w = (Ok resp, w)) <->
   dates_resolve w payload /\ printable (PlanRequest.travelers payload)) /\
  forall resp w', _generate_mock_plan payload w = (Ok resp, w') ->
    (PlanRequest.start_date payload = None ->
     toordinal (PlanResponse.start_date resp) = toordinal (clock w) + 14) /\
    (forall s, PlanRequest.start_date payload = Some s ->
     PlanResponse.start_date resp = s) /\
    (PlanRequest.end_date payload = None ->
     toordinal (PlanResponse.end_date resp)
       = toordinal (PlanResponse.start_date resp) + 4 /\
     PlanResponse.nights resp = 4) /\
    (forall e, PlanRequest.end_date payload = Some e ->
     toordinal e <= toordinal (PlanResponse.start_date resp) ->
     toordinal (PlanResponse.end_date resp)
       = toordinal (PlanResponse.start_date resp) + 4 /\
     PlanResponse.nights resp = 4) /\
    (forall e, PlanRequest.end_date payload = Some e ->
     toordinal (PlanResponse.start_date resp) < toordinal e ->
     PlanResponse.end_date resp = e /\
     PlanResponse.nights resp
       = toordinal e - toordinal (PlanResponse.start_date resp)).
Proof.
  intros Hclock Hreq. split.
  - now apply generate_returns_iff.
  - intros resp w'. apply returned_dates.
Qed.

(** The request [{destination: "Tokyo"}] on 2025-05-01: four nights from
    2025-05-15. *)
Lemma date_resolution_witness :
  valid_date (clock world_2025) /\
  valid_request tokyo_request /\
  exists resp,
    _generate_mock_plan tokyo_request world_2025 = (Ok resp, world_2025) /\
    PlanResponse.start_date resp = ymd 2025 5 15 /\
    PlanResponse.end_date resp = ymd 2025 5 19 /\
    PlanResponse.nights resp = 4.
Proof.
  assert (Hclock : valid_date (clock world_2025))
    by (vm_compute; split; intros H; discriminate H).
  assert (Hreq : valid_request tokyo_request) by (split; exact I).
  split; [exact Hclock|]. split; [exact Hreq|].
  destruct (date_resolution tokyo_request world_2025 Hclock Hreq)
    as [Hreturns Hdates].
  destruct (proj2 Hreturns) as [resp Hrun].
  - split.
    + intros _. vm_compute. intros H. discriminate H.
    + apply printable_small. reflexivity.
  - exists resp. split; [exact Hrun|].
    destruct (Hdates resp world_2025 Hrun) as (Hstart & _ & Hend & _).
    specialize (Hstart eq_refl). destruct (Hend eq_refl) as [He Hn].
    repeat split.
    + apply date_eq. rewrite Hstart. reflexivity.
    + apply date_eq. rewrite He, Hstart. reflexivity.
    + exact Hn.
Defined.

(** C1, the claim as stated, fails: a request with start date 9999-12-30
    and no end date gets no plan at all, since [start + timedelta(days=4)]
    is past [date.max] and raises. *)
Lemma date_resolution_overflow :
  valid_date (clock world_2025) /\
  valid_request late_request /\
  PlanRequest.end_date late_request = None /\
  _generate_mock_plan late_request world_2025 =
  (Raise (OverflowError "date value out of range"), world_2025).
Proof.
  split; [vm_compute; split; intros H; discriminate H|].
  split; [split; [vm_compute; split; intros H; discriminate H | exact I]|].
  split; reflexivity.
Qed.



(* ------------------------------------------------------------------ *)
(** ** Invariants of a generated plan *)

(** C6: in every plan the generator produces, nights is at least 1 and
    every item's day lies in [1, nights]. *)
Theorem nights_positive_days_in_range (payload : PlanRequest.t)
  (w w' : World) (resp : PlanResponse.t) :
  _generate_mock_plan payload w = (Ok resp, w') ->
  1 <= PlanResponse.nights resp /\
  forall it, In it (PlanResponse.items resp) ->
             1 <= ItineraryItem.day it <= PlanResponse.nights resp.
Proof.
  intros Hrun.
  destruct (generate_inv _ _ _ _ Hrun)
    as (_ & start & end_ & nights & Hres & ->).
  destruct (resolve_dates_inv _ _ _ _ _ Hres) as (_ & _ & Hpos & _).
  cbn [plan_of PlanResponse.items PlanResponse.nights].
  split; [exact Hpos|].
  intros it Hin. apply plan_items_In in Hin.
  destruct Hin as [-> | [-> | (d & Hd & [-> | ->])]];
    cbn [hotel_item activity_item restaurant_item ItineraryItem.day]; lia.
Qed.

Lemma nights_positive_days_in_range_witness :
  1 <= PlanResponse.nights
         (plan_of paris_request (ymd 2025 6 1) (ymd 2025 6 4) 3) /\
  forall it,
    In it (PlanResponse.items
             (plan_of paris_request (ymd 2025 6 1) (ymd 2025 6 4) 3)) ->
    1 <= ItineraryItem.day it <= 3.
Proof.
  apply (nights_positive_days_in_range paris_request world_2025 world_2025).
  reflexivity.
Defined.

(* ------------------------------------------------------------------ *)
(** ** Item synthesis *)

(** C3: for every day [d] in [1, nights] of a generated plan, the items
    hold exactly one activity and exactly one restaurant scheduled on day
    [d]: the activity "Guided walking tour - Day <d>" at 39.00 USD from
    10:00 to 12:00 with the vendor at index [(d + 2) mod N] of the table,
    and the restaurant "Cozy local restaurant - Day <d>" without a price,
    with vendor "OpenTable", its fixed base URL and start time 19:30. *)
Theorem one_activity_one_restaurant_per_day (payload : PlanRequest.t)
  (w w' : World) (resp : PlanResponse.t) (d : Z) :
  _generate_mock_plan payload w = (Ok resp, w') ->
  1 <= d <= PlanResponse.nights resp ->
  items_on activity d (PlanResponse.items resp) =
    [ {| ItineraryItem.day := d;
         ItineraryItem.type := activity;
         ItineraryItem.title := "Guided walking tour - Day " +++ str_int d;
         ItineraryItem.description :=
           Some "Highly rated experience with instant confirmation.";
         ItineraryItem.location := Some (PlanRequest.destination payload);
         ItineraryItem.start_time := Some "10:00";
         ItineraryItem.end_time := Some "12:00";
         ItineraryItem.price := Some 39.0%float;
         ItineraryItem.currency := Some "USD";
         ItineraryItem.link :=
           Some (_mock_link (snd (vendor_at (d + 2)))
                   (PlanRequest.destination payload +++ " walking tour"));
         ItineraryItem.available := true;
         ItineraryItem.vendor := Some (fst (vendor_at (d + 2))) |} ] /\
  items_on restaurant d (PlanResponse.items resp) =
    [ {| ItineraryItem.day := d;
         ItineraryItem.type := restaurant;
         ItineraryItem.title := "Cozy local restaurant - Day " +++ str_int d;
         ItineraryItem.description :=
           Some "Loved by locals. Reserve a table online.";
         ItineraryItem.location := Some (PlanRequest.destination payload);
         ItineraryItem.start_time := Some "19:30";
         ItineraryItem.end_time := None;
         ItineraryItem.price := None;
         ItineraryItem.currency := Some "USD";
         ItineraryItem.link :=
           Some (_mock_link "https://www.opentable.com"
                   (PlanRequest.destination payload +++ " dinner"));
         ItineraryItem.available := true;
         ItineraryItem.vendor := Some "OpenTable" |} ] /\
  getitem VENDORS ((d + 2) mod len VENDORS) = Ok (vendor_at (d + 2)).
Proof.
  intros Hrun Hd.
  destruct (generate_inv _ _ _ _ Hrun) as (_ & start & end_ & nights & _ & ->).
  cbn [plan_of PlanResponse.items PlanResponse.nights] in *.
  split; [|split].
  - now rewrite items_on_plan by (auto; lia).
  - now rewrite items_on_plan by (auto; lia).
  - apply getitem_VENDORS.
Qed.

(** Day 2 of the Paris plan: the vendor at index 4 is Viator. *)
Lemma one_activity_one_restaurant_per_day_witness :
  map ItineraryItem.vendor
    (items_on activity 2
       (PlanResponse.items
          (plan_of paris_request (ymd 2025 6 1) (ymd 2025 6 4) 3)))
  = [Some "Viator"] /\
  map ItineraryItem.vendor
    (items_on restaurant 2
       (PlanResponse.items
          (plan_of paris_request (ymd 2025 6 1) (ymd 2025 6 4) 3)))
  = [Some "OpenTable"].
Proof.
  destruct (one_activity_one_restaurant_per_day paris_request
              world_2025 world_2025
              (plan_of paris_request (ymd 2025 6 1) (ymd 2025 6 4) 3) 2
              eq_refl)
    as (Hact & Hrest & _).
  - cbn [plan_of PlanResponse.nights]. split; intros H; discriminate H.
  - rewrite Hact, Hrest. split; reflexivity.
Defined.

(** C4: a generated plan holds exactly two hotel items, both on day 1,
    titled "<destination> Boutique Hotel <n>" for n = 1, 2, priced
    [145 + 35 * (n - 1)] USD, with the vendor at index [n - 1] of the
    rotation (so starting at index 0) and the link
    "<vendor_base>/search?q=<title>" in which every space of the title has
    become a '+' and every other character is left as it is. *)
Theorem two_hotels_on_day_one (payload : PlanRequest.t) (w w' : World)
  (resp : PlanResponse.t) :
  _generate_mock_plan payload w = (Ok resp, w') ->
  items_of_kind hotel (PlanResponse.items resp) =
    map (fun n =>
      let title := PlanRequest.destination payload
                     +++ " Boutique Hotel " +++ str_int n in
      {| ItineraryItem.day := 1;
         ItineraryItem.type := hotel;
         ItineraryItem.title := title;
         ItineraryItem.description :=
           Some ("Centrally located stay for "
                   +++ str_int (PlanResponse.nights resp) +++ " nights.");
         ItineraryItem.location := Some (PlanRequest.destination payload);
         ItineraryItem.start_time := None;
         ItineraryItem.end_time := None;
         ItineraryItem.price := Some (float_of_int (145 + 35 * (n - 1)));
         ItineraryItem.currency := Some "USD";
         ItineraryItem.link :=
           Some (snd (vendor_at (n - 1)) +++ "/search?q="
                   +++ replace " " "+" title);
         ItineraryItem.available := true;
         ItineraryItem.vendor := Some (fst (vendor_at (n - 1))) |})
      [1; 2] /\
  vendor_at 0 = ("Booking.com", "https://www.booking.com") /\
  vendor_at 1 = ("Airbnb", "https://www.airbnb.com") /\
  (forall title : string,
     String.length (replace " " "+" title) = String.length title /\
     forall i : nat,
       String.get i (replace " " "+" title) =
       option_map (fun c => if Ascii.eqb c " " then "+"%char else c)
                  (String.get i title)).
Proof.
  intros Hrun.
  destruct (generate_inv _ _ _ _ Hrun) as (_ & start & end_ & nights & _ & ->).
  cbn [plan_of PlanResponse.items PlanResponse.nights].
  split; [apply hotels_of_plan|].
  split; [reflexivity|]. split; [reflexivity|].
  intros title. split; [apply replace_length | apply replace_get].
Qed.

(** The two hotels of the Paris plan. *)
Lemma two_hotels_on_day_one_witness :
  map (fun it => (ItineraryItem.day it, ItineraryItem.title it,
                  ItineraryItem.price it, ItineraryItem.link it))
    (items_of_kind hotel
       (PlanResponse.items
          (plan_of paris_request (ymd 2025 6 1) (ymd 2025 6 4) 3)))
  = [ (1, "Paris Boutique Hotel 1", Some 145.0%float,
       Some "https://www.booking.com/search?q=Paris+Boutique+Hotel+1");
      (1, "Paris Boutique Hotel 2", Some 180.0%float,
       Some "https://www.airbnb.com/search?q=Paris+Boutique+Hotel+2") ].
Proof.
  destruct (two_hotels_on_day_one paris_request world_2025 world_2025
              (plan_of paris_request (ymd 2025 6 1) (ymd 2025 6 4) 3)
              eq_refl)
    as (Hhotels & _).
  rewrite Hhotels. reflexivity.
Defined.

(** C5 (as amended): in every generated plan the currency of every item,
    the restaurant items included, is "USD"; a restaurant item has no
    price; every other item has a price, and it is strictly positive. *)
Theorem currency_and_prices (payload : PlanRequest.t) (w w' : World)
  (resp : PlanResponse.t) (it : ItineraryItem.t) :
  _generate_mock_plan payload w = (Ok resp, w') ->
  In it (PlanResponse.items resp) ->
  ItineraryItem.currency it = Some "USD" /\
  (ItineraryItem.type it = restaurant -> ItineraryItem.price it = None) /\
  (ItineraryItem.type it <> restaurant ->
   exists p, ItineraryItem.price it = Some p /\ PrimFloat.ltb 0 p = true).
Proof.
  intros Hrun Hin.
  destruct (generate_inv _ _ _ _ Hrun) as (_ & start & end_ & nights & _ & ->).
  cbn [plan_of PlanResponse.items] in Hin.
  apply plan_items_In in Hin.
  destruct Hin as [-> | [-> | (d & Hd & [-> | ->])]];
    cbn [hotel_item activity_item restaurant_item ItineraryItem.currency
         ItineraryItem.type ItineraryItem.price];
    (split; [reflexivity|]); split; try discriminate; try congruence;
    intros _; eexists; split; reflexivity.
Qed.

(** The first restaurant and the first hotel of the Paris plan. *)
Lemma currency_and_prices_witness :
  (ItineraryItem.currency (restaurant_item "Paris" 1) = Some "USD" /\
   ItineraryItem.price (restaurant_item "Paris" 1) = None) /\
  ItineraryItem.currency (hotel_item "Paris" 3 1) = Some "USD".
Proof.
  split.
  - destruct (currency_and_prices paris_request world_2025 world_2025
                (plan_of paris_request (ymd 2025 6 1) (ymd 2025 6 4) 3)
                (restaurant_item "Paris" 1) eq_refl)
      as (Hcur & Hprice & _).
    + right; right; right; left. reflexivity.
    + split; [exact Hcur | exact (Hprice eq_refl)].
  - reflexivity.
Defined.

(** C5, the claim as stated, fails: the restaurant items of a plan do have
    a currency, the model's default "USD", since the constructor call
    passes none. *)
Lemma restaurant_currency_is_usd :
  exists resp,
    _generate_mock_plan paris_request world_2025 = (Ok resp, world_2025) /\
    map (fun it => (ItineraryItem.price it, ItineraryItem.currency it))
        (items_of_kind restaurant (PlanResponse.items resp))
    = [ (None, Some "USD"); (None, Some "USD"); (None, Some "USD") ].
Proof.
  eexists. split; reflexivity.
Qed.

(* ------------------------------------------------------------------ *)
(** ** The plan endpoint and its requests *)

(** C7: the plan endpoint raises an HTTP exception exactly when the
    destination is empty, and then it is the 400 "Destination is required";
    it does so without running the generator, whatever the generator would
    have done with the request; for a non-empty destination its outcome is
    the generator's, unchanged. *)
Theorem plan_trip_rejects_empty_destination (payload : PlanRequest.t)
  (w : World) :
  (forall status detail,
     fst (plan_trip payload w) = Raise (HTTPException status detail) <->
     PlanRequest.destination payload = "" /\
     status = 400 /\ detail = "Destination is required") /\
  (PlanRequest.destination payload = "" ->
   plan_trip payload w =
   (Raise (HTTPException 400 "Destination is required"), w)) /\
  (PlanRequest.destination payload <> "" ->
   plan_trip payload w = _generate_mock_plan payload w).
Proof.
  split; [|split].
  - intros status detail. split.
    + destruct (string_dec (PlanRequest.destination payload) "") as [E|N].
      * rewrite (plan_trip_empty _ _ E). cbn [fst].
        intros H. inversion H. auto.
      * rewrite (plan_trip_nonempty _ _ N). intros H.
        apply generate_raise in H. destruct H as [H | H]; discriminate H.
    + intros (E & -> & ->). now rewrite (plan_trip_empty _ _ E).
  - apply plan_trip_empty.
  - apply plan_trip_nonempty.
Qed.

(** The check comes first: an empty destination with dates on which the
    generator overflows is answered with the 400, while the same dates
    with a destination reach the generator. *)
Example plan_trip_check_precedes_generation :
  plan_trip empty_late_request world_2025 =
    (Raise (HTTPException 400 "Destination is required"), world_2025) /\
  plan_trip late_request world_2025 =
    (Raise (OverflowError "date value out of range"), world_2025).
Proof.
  split; reflexivity.
Qed.

Lemma travelers_default (kwargs : list PlanRequest.kwarg) :
  (forall v, ~ In (PlanRequest.Travelers v) kwargs) ->
  forall r, PlanRequest.travelers (fold_left PlanRequest.set kwargs r)
            = PlanRequest.travelers r.
Proof.
  induction kwargs as [|k kwargs IH]; intros Habsent r; cbn [fold_left].
  - reflexivity.
  - rewrite IH by (intros v Hin; apply (Habsent v); right; exact Hin).
    destruct r, k; cbn; try reflexivity.
    exfalso. apply (Habsent v). left. reflexivity.
Qed.

(** C8 (as amended): the traveler count of a plan request is an integer,
    1 when the request gives none, and the response of every accepted
    request carries the request's traveler count. *)
Theorem travelers_default_and_echo :
  (forall destination kwargs,
     (forall v, ~ In (PlanRequest.Travelers v) kwargs) ->
     PlanRequest.travelers (PlanRequest.new destination kwargs) = 1) /\
  (forall payload w w' resp,
     plan_trip payload w = (Ok resp, w') ->
     PlanResponse.travelers resp = PlanRequest.travelers payload).
Proof.
  split.
  - intros destination kwargs Habsent. unfold PlanRequest.new.
    now rewrite travelers_default.
  - intros payload w w' resp Hrun.
    destruct (string_dec (PlanRequest.destination payload) "") as [E|N].
    + rewrite (plan_trip_empty _ _ E) in Hrun. discriminate Hrun.
    + rewrite (plan_trip_nonempty _ _ N) in Hrun.
      destruct (generate_inv _ _ _ _ Hrun) as (_ & s & e & n & _ & ->).
      reflexivity.
Qed.

(** C8, the claim as stated, fails: a request for zero travelers is
    accepted and answered with a plan for zero travelers. *)
Lemma zero_travelers_accepted :
  exists resp,
    plan_trip zero_travelers_request world_2025 = (Ok resp, world_2025) /\
    PlanResponse.travelers resp = 0 /\
    PlanResponse.summary resp =
      "Personalized 4-night plan for Paris. Optimized for 0 traveler(s).".
Proof.
  eexists. repeat split; reflexivity.
Qed.

(* ------------------------------------------------------------------ *)
(** ** Determinism *)

(** C9: the generator is a function of its request and of the current
    date alone, and leaves the world as it found it: on equal requests, in
    two worlds whose clocks show the same date, it yields the same
    outcome, whatever else the worlds hold, and each world is handed back
    unchanged; when the request supplies a start date, the outcome does
    not depend on the clock either. *)
Theorem generator_deterministic (p1 p2 : PlanRequest.t) (w1 w2 : World) :
  p1 = p2 ->
  clock w1 = clock w2 ->
  fst (_generate_mock_plan p1 w1) = fst (_generate_mock_plan p2 w2) /\
  snd (_generate_mock_plan p1 w1) = w1 /\
  snd (_generate_mock_plan p2 w2) = w2 /\
  (forall s w3, PlanRequest.start_date p1 = Some s ->
     fst (_generate_mock_plan p1 w3) = fst (_generate_mock_plan p1 w1)).
Proof.
  intros <- Hclock. rewrite !generate_run. cbn [fst snd].
  rewrite Hclock. repeat split.
  intros s w3 Hs. rewrite generate_run. cbn [fst].
  unfold resolve_dates. rewrite Hs. reflexivity.
Qed.

(** The Paris request with and without a document store, on two different
    days. *)
Lemma generator_deterministic_witness :
  fst (_generate_mock_plan paris_request world_2025)
  = fst (_generate_mock_plan paris_request
           (mkWorld (ymd 2025 5 1) (Some [("trip", "Rome")]))) /\
  fst (_generate_mock_plan paris_request (mkWorld (ymd 2024 2 29) None))
  = fst (_generate_mock_plan paris_request world_2025).
Proof.
  destruct (generator_deterministic paris_request paris_request
              world_2025 (mkWorld (ymd 2025 5 1) (Some [("trip", "Rome")]))
              eq_refl eq_refl)
    as (Hsame & _ & _ & Hclock).
  split; [exact Hsame|].
  exact (Hclock (ymd 2025 6 1) (mkWorld (ymd 2024 2 29) None) eq_refl).
Defined.

(** Without a start date the outcome does follow the clock. *)
Example generator_follows_clock :
  fst (_generate_mock_plan tokyo_request world_2025)
  <> fst (_generate_mock_plan tokyo_request (mkWorld (ymd 2025 5 2) None)).
Proof.
  rewrite !generate_run. cbn [fst]. intros H.
  vm_compute in H. discriminate H.
Qed.

(* ------------------------------------------------------------------ *)
(** ** Whitespace destinations *)

(** Every link of a plan is a base URL, the query prefix, the destination
    with its spaces replaced, and a rest. *)
Lemma plan_items_link (dest : string) (nights : Z) (it : ItineraryItem.t) :
  In it (plan_items dest nights) ->
  exists base rest,
    ItineraryItem.link it =
    Some (base +++ "/search?q=" +++ replace " " "+" dest +++ rest).
Proof.
  intros Hin. apply plan_items_In in Hin.
  destruct Hin as [-> | [-> | (d & Hd & [-> | ->])]];
    cbn [hotel_item activity_item restaurant_item ItineraryItem.link];
    unfold _mock_link; rewrite replace_append; eexists _, _; reflexivity.
Qed.

Lemma plan_items_location (dest : string) (nights : Z)
  (it : ItineraryItem.t) :
  In it (plan_items dest nights) -> ItineraryItem.location it = Some dest.
Proof.
  intros Hin. apply plan_items_In in Hin.
  destruct Hin as [-> | [-> | (d & Hd & [-> | ->])]]; reflexivity.
Qed.

(** C10 (as amended): the emptiness check of the plan endpoint rejects
    the empty destination and no other. Any other destination, so every
    destination made of whitespace only, in ASCII or not, passes it, and
    gets a plan exactly when its dates resolve and its traveler count
    prints: a full plan of [2 + 2 * nights] items, whose hotel titles
    begin with the destination as given and whose items all have the
    destination as given for location, while every link carries the
    destination with each space replaced by '+', which is the
    destination as given only when it holds no space. *)
Theorem whitespace_destination_planned (payload : PlanRequest.t)
  (w : World) :
  (forall status detail,
     fst (plan_trip payload w) = Raise (HTTPException status detail) <->
     PlanRequest.destination payload = "" /\
     status = 400 /\ detail = "Destination is required") /\
  (PlanRequest.destination payload <> "" ->
   forall resp w', plan_trip payload w = (Ok resp, w') ->
     len (PlanResponse.items resp) = 2 + 2 * PlanResponse.nights resp /\
     map ItineraryItem.title
         (items_of_kind hotel (PlanResponse.items resp))
       = [ PlanRequest.destination payload +++ " Boutique Hotel 1";
           PlanRequest.destination payload +++ " Boutique Hotel 2" ] /\
     (forall it, In it (PlanResponse.items resp) ->
        ItineraryItem.location it
          = Some (PlanRequest.destination payload)) /\
     (forall it, In it (PlanResponse.items resp) ->
        exists base rest,
          ItineraryItem.link it =
          Some (base +++ "/search?q="
                  +++ replace " " "+" (PlanRequest.destination payload)
                  +++ rest))) /\
  (PlanRequest.destination payload <> "" ->
   valid_date (clock w) ->
   valid_request payload ->
   ((exists resp, plan_trip payload w = (Ok resp, w)) <->
    dates_resolve w payload /\
    printable (PlanRequest.travelers payload))) /\
  (contains " " (PlanRequest.destination payload) = false ->
   replace " " "+" (PlanRequest.destination payload)
     = PlanRequest.destination payload).
Proof.
  split; [|split; [|split]].
  - intros status detail. split.
    + destruct (string_dec (PlanRequest.destination payload) "") as [E|N].
      * rewrite (plan_trip_empty _ _ E). cbn [fst].
        intros H. inversion H. auto.
      * rewrite (plan_trip_nonempty _ _ N). intros H.
        apply generate_raise in H. destruct H as [H | H]; discriminate H.
    + intros (E & -> & ->). now rewrite (plan_trip_empty _ _ E).
  - intros Hne resp w' Hrun.
    rewrite (plan_trip_nonempty _ _ Hne) in Hrun.
    destruct (generate_inv _ _ _ _ Hrun)
      as (_ & start & end_ & nights & Hres & ->).
    destruct (resolve_dates_inv _ _ _ _ _ Hres) as (_ & _ & Hpos & _).
    cbn [plan_of PlanResponse.items PlanResponse.nights].
    split; [apply plan_items_length; lia|].
    split; [now rewrite hotels_of_plan|].
    split; [intros it; apply plan_items_location|].
    intros it; apply plan_items_link.
  - intros Hne Hclock Hreq.
    rewrite (plan_trip_nonempty _ _ Hne).
    now apply generate_returns_iff.
  - apply replace_absent.
Qed.

(** A destination that is one no-break space: the links carry it as
    given. *)
Lemma whitespace_destination_planned_witness :
  exists resp,
    plan_trip nbsp_request world_2025 = (Ok resp, world_2025) /\
    len (PlanResponse.items resp) = 2 + 2 * PlanResponse.nights resp /\
    replace " " "+" (PlanRequest.destination nbsp_request)
      = PlanRequest.destination nbsp_request.
Proof.
  destruct (whitespace_destination_planned nbsp_request world_2025)
    as (_ & Hplan & Hreturns & Hlink).
  assert (Hne : PlanRequest.destination nbsp_request <> "")
    by discriminate.
  assert (Hclock : valid_date (clock world_2025))
    by (vm_compute; split; intros H; discriminate H).
  assert (Hreq : valid_request nbsp_request) by (split; exact I).
  destruct (proj2 (Hreturns Hne Hclock Hreq)) as [resp Hrun].
  - split.
    + intros _. vm_compute. intros H. discriminate H.
    + apply printable_small. reflexivity.
  - exists resp. split; [exact Hrun|].
    split; [exact (proj1 (Hplan Hne resp world_2025 Hrun))|].
    apply Hlink. reflexivity.
Defined.

(** C10, the claim as stated, fails: for the destination " " no link of
    the plan contains a space, so none embeds the destination as given;
    the hotel links carry "++" where title and destination had spaces. *)
Lemma space_destination_links :
  exists resp,
    plan_trip space_request world_2025 = (Ok resp, world_2025) /\
    forallb (link_lacks " ") (PlanResponse.items resp) = true /\
    map ItineraryItem.link (items_of_kind hotel (PlanResponse.items resp))
      = [ Some "https://www.booking.com/search?q=++Boutique+Hotel+1";
          Some "https://www.airbnb.com/search?q=++Boutique+Hotel+2" ].
Proof.
  eexists. repeat split; reflexivity.
Qed.

(* ------------------------------------------------------------------ *)
(** ** The examples of the specification *)

(** [{destination: "Paris", start_date: 2025-06-01, end_date: 2025-06-04}]:
    three nights, eight items, two sources, and a summary that says so. *)
Example paris_plan :
  exists resp,
    plan_trip paris_request world_2025 = (Ok resp, world_2025) /\
    PlanResponse.nights resp = 3 /\
    len (PlanResponse.items resp) = 8 /\
    len (PlanResponse.sources resp) = 2 /\
    contains "3-night plan for Paris" (PlanResponse.summary resp) = true.
Proof.
  eexists. repeat split; reflexivity.
Qed.

(** [{destination: "Tokyo"}] asked on 2025-05-01: from 2025-05-15 to
    2025-05-19, four nights, ten items. *)
Example tokyo_plan :
  exists resp,
    plan_trip tokyo_request world_2025 = (Ok resp, world_2025) /\
    PlanResponse.start_date resp = ymd 2025 5 15 /\
    PlanResponse.end_date resp = ymd 2025 5 19 /\
    PlanResponse.nights resp = 4 /\
    len (PlanResponse.items resp) = 10.
Proof.
  eexists. repeat split; reflexivity.
Qed.

(* ------------------------------------------------------------------ *)
(** ** The shape of every plan *)

(** Every plan, whichever way its dates were resolved, has
    [2 + 2 * nights] items, hence at least four. *)
Theorem plan_item_count (payload : PlanRequest.t) (w w' : World)
  (resp : PlanResponse.t) :
  _generate_mock_plan payload w = (Ok resp, w') ->
  len (PlanResponse.items resp) = 2 + 2 * PlanResponse.nights resp /\
  4 <= len (PlanResponse.items resp).
Proof.
  intros Hrun.
  destruct (generate_inv _ _ _ _ Hrun)
    as (_ & start & end_ & nights & Hres & ->).
  destruct (resolve_dates_inv _ _ _ _ _ Hres) as (_ & _ & Hpos & _).
  cbn [plan_of PlanResponse.items PlanResponse.nights].
  rewrite plan_items_length by lia. lia.
Qed.

Lemma plan_item_count_witness :
  len (PlanResponse.items
         (plan_of tokyo_request (ymd 2025 5 15) (ymd 2025 5 19) 4)) = 10.
Proof.
  destruct (plan_item_count tokyo_request world_2025 world_2025
              (plan_of tokyo_request (ymd 2025 5 15) (ymd 2025 5 19) 4)
              eq_refl) as [Hlen _].
  rewrite Hlen. reflexivity.
Defined.

(** The fields of a plan agree with each other and with the request: the
    nights are the days from the start date to the end date, the end date
    is after the start date, the destination is the request's, the sources
    are the same two whatever was asked, and the world is as before. *)
Theorem response_consistent (payload : PlanRequest.t) (w w' : World)
  (resp : PlanResponse.t) :
  _generate_mock_plan payload w = (Ok resp, w') ->
  PlanResponse.nights resp =
    date_sub_days (PlanResponse.end_date resp) (PlanResponse.start_date resp)
  /\ toordinal (PlanResponse.start_date resp)
     < toordinal (PlanResponse.end_date resp)
  /\ PlanResponse.destination resp = PlanRequest.destination payload
  /\ PlanResponse.sources resp =
       [ [("name", "Tripadvisor"); ("url", "https://www.tripadvisor.com")];
         [("name", "Viator"); ("url", "https://www.viator.com")] ]
  /\ w' = w.
Proof.
  intros Hrun.
  destruct (generate_inv _ _ _ _ Hrun)
    as (-> & start & end_ & nights & Hres & ->).
  destruct (resolve_dates_inv _ _ _ _ _ Hres) as (_ & Hn & Hpos & _).
  cbn [plan_of PlanResponse.nights PlanResponse.start_date
       PlanResponse.end_date PlanResponse.destination PlanResponse.sources].
  unfold date_sub_days. repeat split; try reflexivity; lia.
Qed.

Lemma response_consistent_witness :
  PlanResponse.nights
    (plan_of paris_request (ymd 2025 6 1) (ymd 2025 6 4) 3)
  = date_sub_days (ymd 2025 6 4) (ymd 2025 6 1).
Proof.
  exact (proj1 (response_consistent paris_request world_2025 world_2025
                  (plan_of paris_request (ymd 2025 6 1) (ymd 2025 6 4) 3)
                  eq_refl)).
Defined.

Lemma days_nth (dest : string) (n : nat) : forall (lo : Z) (k : nat),
  (k < n)%nat ->
  nth_error (flat_map (day_items dest) (range_from lo n)) (2 * k)
    = Some (activity_item dest (lo + Z.of_nat k)) /\
  nth_error (flat_map (day_items dest) (range_from lo n)) (2 * k + 1)
    = Some (restaurant_item dest (lo + Z.of_nat k)).
Proof.
  induction n as [|n IH]; intros lo k Hk; [lia|].
  cbn [range_from flat_map day_items app].
  destruct k as [|k].
  - cbn [Nat.mul Nat.add nth_error Z.of_nat].
    rewrite Z.add_0_r. split; reflexivity.
  - replace (2 * S k)%nat with (S (S (2 * k))) by lia.
    replace (S (S (2 * k)) + 1)%nat with (S (S (2 * k + 1))) by lia.
    cbn [nth_error].
    replace (lo + Z.of_nat (S k)) with (lo + 1 + Z.of_nat k) by lia.
    apply IH. lia.
Qed.

(** Where each item stands: the two hotels come first, and the activity
    and the restaurant of day [d] are the items at (0-based) positions
    [2 * d] and [2 * d + 1]. *)
Theorem item_positions (payload : PlanRequest.t) (w w' : World)
  (resp : PlanResponse.t) :
  _generate_mock_plan payload w = (Ok resp, w') ->
  let dest := PlanRequest.destination payload in
  let items := PlanResponse.items resp in
  nth_error items 0 = Some (hotel_item dest (PlanResponse.nights resp) 1) /\
  nth_error items 1 = Some (hotel_item dest (PlanResponse.nights resp) 2) /\
  forall d, 1 <= d <= PlanResponse.nights resp ->
    nth_error items (Z.to_nat (2 * d)) = Some (activity_item dest d) /\
    nth_error items (Z.to_nat (2 * d + 1)) = Some (restaurant_item dest d).
Proof.
  intros Hrun dest items. subst dest items.
  destruct (generate_inv _ _ _ _ Hrun)
    as (_ & start & end_ & nights & _ & ->).
  cbn [plan_of PlanResponse.items PlanResponse.nights].
  split; [reflexivity|]. split; [reflexivity|].
  intros d Hd. unfold plan_items, range.
  replace (Z.to_nat (2 * d)) with (S (S (2 * Z.to_nat (d - 1)))) by lia.
  replace (Z.to_nat (2 * d + 1))
    with (S (S (2 * Z.to_nat (d - 1) + 1))) by lia.
  cbn [nth_error].
  replace d with (1 + Z.of_nat (Z.to_nat (d - 1))) at 2 4 by lia.
  apply days_nth. lia.
Qed.

Lemma item_positions_witness :
  option_map ItineraryItem.title
    (nth_error
       (PlanResponse.items
          (plan_of paris_request (ymd 2025 6 1) (ymd 2025 6 4) 3)) 6)
  = Some "Guided walking tour - Day 3".
Proof.
  destruct (item_positions paris_request world_2025 world_2025
              (plan_of paris_request (ymd 2025 6 1) (ymd 2025 6 4) 3)
              eq_refl) as (_ & _ & Hdays).
  destruct (Hdays 3) as [Hact _].
  - cbn [plan_of PlanResponse.nights]. split; intros H; discriminate H.
  - change (Z.to_nat (2 * 3)) with 6%nat in Hact. rewrite Hact. reflexivity.
Defined.

Lemma days_sorted (dest : string) (n : nat) : forall lo : Z,
  StronglySorted Z.le
    (map ItineraryItem.day (flat_map (day_items dest) (range_from lo n))) /\
  Forall (fun d => lo <= d)
    (map ItineraryItem.day (flat_map (day_items dest) (range_from lo n))).
Proof.
  induction n as [|n IH]; intros lo; cbn [range_from flat_map map].
  - split; constructor.
  - destruct (IH (lo + 1)) as [Hsorted Hbound].
    cbn [day_items app map activity_item restaurant_item ItineraryItem.day].
    assert (Hlo : Forall (fun d => lo <= d)
                    (map ItineraryItem.day
                       (flat_map (day_items dest) (range_from (lo + 1) n)))).
    { eapply Forall_impl; [|exact Hbound]. cbn. intros; lia. }
    split.
    + constructor; [constructor; assumption|].
      constructor; [lia | assumption].
    + constructor; [lia|]. constructor; [lia | assumption].
Qed.

(** The items of a plan are in the order of their days. *)
Theorem items_sorted_by_day (payload : PlanRequest.t) (w w' : World)
  (resp : PlanResponse.t) :
  _generate_mock_plan payload w = (Ok resp, w') ->
  StronglySorted Z.le (map ItineraryItem.day (PlanResponse.items resp)).
Proof.
  intros Hrun.
  destruct (generate_inv _ _ _ _ Hrun)
    as (_ & start & end_ & nights & _ & ->).
  cbn [plan_of PlanResponse.items]. unfold plan_items, range.
  destruct (days_sorted (PlanRequest.destination payload)
              (Z.to_nat (nights + 1 - 1)) 1) as [Hsorted Hbound].
  cbn [map hotel_item ItineraryItem.day].
  constructor; [constructor; assumption|].
  constructor; [lia | assumption].
Qed.

Lemma items_sorted_by_day_witness :
  StronglySorted Z.le
    (map ItineraryItem.day
       (PlanResponse.items
          (plan_of paris_request (ymd 2025 6 1) (ymd 2025 6 4) 3))).
Proof.
  apply (items_sorted_by_day paris_request world_2025 world_2025).
  reflexivity.
Defined.

(* ------------------------------------------------------------------ *)
(** ** When the generator fails *)

(** For dates that are dates the generator has three outcomes. When the
    dates overflow (the date four days after the start date is needed
    and is past [date.max], which covers today + 14 days being past it)
    it raises the [OverflowError] of the date arithmetic. When they
    resolve but the traveler count has more than 4300 digits it raises
    the [ValueError] of the integer conversion. Otherwise it returns a
    plan. It raises nothing else: no item fails validation and no vendor
    index leaves the table. *)
Theorem generator_outcomes (payload : PlanRequest.t) (w : World) :
  valid_date (clock w) ->
  valid_request payload ->
  (date_overflows w payload \/ dates_resolve w payload) /\
  (date_overflows w payload ->
   _generate_mock_plan payload w
   = (Raise (OverflowError "date value out of range"), w)) /\
  (dates_resolve w payload ->
   ~ printable (PlanRequest.travelers payload) ->
   _generate_mock_plan payload w
   = (Raise (ValueError
        ("Exceeds the limit (4300 digits) for integer string conversion; "
         +++ "use sys.set_int_max_str_digits() to increase the limit")),
      w)) /\
  (dates_resolve w payload ->
   printable (PlanRequest.travelers payload) ->
   exists resp, _generate_mock_plan payload w = (Ok resp, w)) /\
  (forall e, fst (_generate_mock_plan payload w) = Raise e ->
     e = OverflowError "date value out of range" \/
     e = ValueError
       ("Exceeds the limit (4300 digits) for integer string conversion; "
        +++ "use sys.set_int_max_str_digits() to increase the limit")).
Proof.
  intros Hclock Hreq.
  destruct (generate_cases payload w Hclock Hreq)
    as [(Hover & Hrun) | [(Hres & Ht & Hrun) | (Hres & Ht & e & n & _ & Hrun)]];
    (split; [auto|]);
    (split; [intros Hover'|]);
    try (split; [intros Hres' Ht'|]);
    try (split; [intros Hres'' Ht''|]);
    try (intros x; apply generate_raise);
    try exact Hrun;
    try (elim (resolve_or_overflow payload w); assumption);
    try contradiction.
  eexists. exact Hrun.
Qed.

Lemma generator_outcomes_witness :
  _generate_mock_plan late_request world_2025
  = (Raise (OverflowError "date value out of range"), world_2025) /\
  fst (_generate_mock_plan crowd_request world_2025)
  = Raise digits_exceeded.
Proof.
  assert (Hclock : valid_date (clock world_2025))
    by (vm_compute; split; intros H; discriminate H).
  split.
  - assert (Hreq : valid_request late_request)
      by (split; [vm_compute; split; intros H; discriminate H | exact I]).
    apply (proj1 (proj2 (generator_outcomes late_request world_2025
                           Hclock Hreq))).
    split; [exact I|]. vm_compute. reflexivity.
  - assert (Hreq : valid_request crowd_request)
      by (split; vm_compute; split; intros H; discriminate H).
    rewrite (proj1 (proj2 (proj2 (generator_outcomes crowd_request
                                    world_2025 Hclock Hreq)))).
    + reflexivity.
    + intros _. vm_compute. intros H. discriminate H.
    + unfold printable. vm_compute. intros H. discriminate H.
Defined.

(* ------------------------------------------------------------------ *)
(** ** What the request fields reach *)

(** The preferences of a request reach nothing: whatever they are set
    to, the endpoint answers the same. *)
Theorem preferences_ignored (payload : PlanRequest.t) (v : option string)
  (w : World) :
  plan_trip (PlanRequest.set payload (PlanRequest.Preferences v)) w
  = plan_trip payload w.
Proof.
  destruct payload as [dest sd ed tr pr bu st].
  cbn [PlanRequest.set].
  destruct (string_dec dest "") as [->|N].
  - reflexivity.
  - rewrite !plan_trip_nonempty by exact N.
    rewrite !generate_run. reflexivity.
Qed.

Lemma resolve_dates_ext (today : date) (p1 p2 : PlanRequest.t) :
  PlanRequest.start_date p1 = PlanRequest.start_date p2 ->
  PlanRequest.end_date p1 = PlanRequest.end_date p2 ->
  resolve_dates today p1 = resolve_dates today p2.
Proof.
  intros Hs He. unfold resolve_dates. now rewrite Hs, He.
Qed.

(** Destination and dates alone decide what is scheduled: of two
    requests that agree on them, the plans, where both get one, have the
    same destination, dates, nights, items and sources; and where both
    traveler counts print, both requests get such plans or both fail
    with the same exception. Travelers, style and budget reach only the
    traveler count and the summary. *)
Theorem schedule_depends_on_destination_and_dates (p1 p2 : PlanRequest.t)
  (w : World) :
  PlanRequest.destination p1 = PlanRequest.destination p2 ->
  PlanRequest.start_date p1 = PlanRequest.start_date p2 ->
  PlanRequest.end_date p1 = PlanRequest.end_date p2 ->
  (forall r1 r2 w1 w2,
     _generate_mock_plan p1 w = (Ok r1, w1) ->
     _generate_mock_plan p2 w = (Ok r2, w2) ->
     itinerary_of r1 = itinerary_of r2) /\
  (printable (PlanRequest.travelers p1) ->
   printable (PlanRequest.travelers p2) ->
   match fst (_generate_mock_plan p1 w), fst (_generate_mock_plan p2 w) with
   | Ok r1, Ok r2 => itinerary_of r1 = itinerary_of r2
   | Raise e1, Raise e2 => e1 = e2
   | _, _ => False
   end).
Proof.
  intros Hd Hs He.
  assert (Hplans : forall start end_ nights,
            itinerary_of (plan_of p1 start end_ nights)
            = itinerary_of (plan_of p2 start end_ nights)).
  { intros. unfold itinerary_of, plan_of. cbn. now rewrite Hd. }
  split.
  - intros r1 r2 w1 w2 H1 H2.
    destruct (generate_inv _ _ _ _ H1) as (_ & s1 & e1 & n1 & Hr1 & ->).
    destruct (generate_inv _ _ _ _ H2) as (_ & s2 & e2 & n2 & Hr2 & ->).
    rewrite (resolve_dates_ext (clock w) p1 p2 Hs He), Hr2 in Hr1.
    inversion Hr1; subst. apply Hplans.
  - intros Ht1 Ht2. rewrite !generate_run. cbn [fst].
    rewrite (resolve_dates_ext (clock w) p1 p2 Hs He).
    destruct (resolve_dates (clock w) p2) as [[[start end_] nights]|e];
      cbn [rbind]; [|reflexivity].
    unfold checked_plan.
    destruct (format_int_cases nights) as [[_ ->] | [_ ->]]; cbn [rbind];
      [|reflexivity].
    rewrite (format_int_ok _ Ht1), (format_int_ok _ Ht2). cbn [rbind].
    apply Hplans.
Qed.

Lemma schedule_depends_on_destination_and_dates_witness :
  match fst (_generate_mock_plan paris_request world_2025),
        fst (_generate_mock_plan
               (PlanRequest.set
                  (PlanRequest.set paris_request (PlanRequest.Travelers 5))
                  (PlanRequest.Style (Some "relaxed"))) world_2025) with
  | Ok r1, Ok r2 => itinerary_of r1 = itinerary_of r2
  | Raise e1, Raise e2 => e1 = e2
  | _, _ => False
  end.
Proof.
  apply (proj2 (schedule_depends_on_destination_and_dates paris_request
           (PlanRequest.set
              (PlanRequest.set paris_request (PlanRequest.Travelers 5))
              (PlanRequest.Style (Some "relaxed"))) world_2025
           eq_refl eq_refl eq_refl));
    apply printable_small; reflexivity.
Defined.

(** An empty style or budget counts as none: the endpoint answers a
    request that gives [""] for either as it answers one that leaves it
    out. *)
Theorem empty_style_or_budget_is_none (payload : PlanRequest.t) (w : World) :
  plan_trip (PlanRequest.set payload (PlanRequest.Style (Some ""))) w
  = plan_trip (PlanRequest.set payload (PlanRequest.Style None)) w /\
  plan_trip (PlanRequest.set payload (PlanRequest.Budget (Some ""))) w
  = plan_trip (PlanRequest.set payload (PlanRequest.Budget None)) w.
Proof.
  destruct payload as [dest sd ed tr pr bu st].
  cbn [PlanRequest.set].
  destruct (string_dec dest "") as [->|N]; [split; reflexivity|].
  rewrite !plan_trip_nonempty by exact N.
  rewrite !generate_run. split; reflexivity.
Qed.

Lemma last_char_cons (c : ascii) (s : string) :
  last_char (String c s) =
  match last_char s with
  | Some x => Some x
  | None => Some c
  end.
Proof.
  revert c. induction s as [|c' s IH]; intros c; [reflexivity|].
  change (last_char (String c (String c' s)))
    with (last_char (String c' s)).
  rewrite (IH c'). now destruct (last_char s).
Qed.

Lemma last_char_append (a b : string) :
  last_char (a +++ b) =
  match last_char b with
  | Some c => Some c
  | None => last_char a
  end.
Proof.
  induction a as [|c a IH]; cbn [String.append].
  - now destruct (last_char b).
  - rewrite !last_char_cons, IH.
    now destruct (last_char b), (last_char a).
Qed.

Lemma prefix_append (a b : string) : String.prefix a (a +++ b) = true.
Proof.
  induction a as [|c a IH]; cbn.
  - now destruct b.
  - destruct (ascii_dec c c) as [_|N]; [exact IH | now elim N].
Qed.

(** The summary of a plan opens with the nights and the destination and
    closes with a full stop, with or without style and budget. *)
Theorem summary_frame (payload : PlanRequest.t) (w w' : World)
  (resp : PlanResponse.t) :
  _generate_mock_plan payload w = (Ok resp, w') ->
  String.prefix
    ("Personalized " +++ str_int (PlanResponse.nights resp)
       +++ "-night plan for " +++ PlanRequest.destination payload
       +++ ". Optimized for " +++ str_int (PlanRequest.travelers payload)
       +++ " traveler(s)")
    (PlanResponse.summary resp) = true /\
  last_char (PlanResponse.summary resp) = Some "."%char.
Proof.
  intros Hrun.
  destruct (generate_inv _ _ _ _ Hrun)
    as (_ & start & end_ & nights & _ & ->).
  cbn [plan_of PlanResponse.summary PlanResponse.nights].
  unfold summary_text. split.
  - match goal with
    | |- String.prefix ?a ((?b +++ ?c) +++ ?d) = true =>
        replace ((b +++ c) +++ d) with (a +++ d)
    end; [apply prefix_append | reflexivity].
  - rewrite !last_char_append.
    destruct (truthy_opt (PlanRequest.budget payload)).
    + rewrite !last_char_append. reflexivity.
    + reflexivity.
Qed.

Lemma summary_frame_witness :
  last_char
    (PlanResponse.summary
       (plan_of paris_request (ymd 2025 6 1) (ymd 2025 6 4) 3))
  = Some "."%char.
Proof.
  exact (proj2 (summary_frame paris_request world_2025 world_2025
                  (plan_of paris_request (ymd 2025 6 1) (ymd 2025 6 4) 3)
                  eq_refl)).
Defined.

(* ------------------------------------------------------------------ *)
(** ** Vendor rotation *)

Lemma vendor_at_period (index : Z) :
  vendor_at (index + len VENDORS) = vendor_at index.
Proof.
  unfold vendor_at. f_equal. f_equal.
  rewrite <- (Z.mul_1_l (len VENDORS)) at 1.
  apply Z.mod_add. discriminate.
Qed.

Lemma vendor_at_In (index : Z) : In (vendor_at index) VENDORS.
Proof.
  unfold vendor_at. apply nth_In.
  assert (H : 0 <= index mod len VENDORS < len VENDORS)
    by (apply Z.mod_pos_bound; reflexivity).
  unfold len in *. lia.
Qed.

Lemma vendor_at_reaches (v : string * string) (index : Z) :
  In v VENDORS ->
  exists k, 0 <= k < len VENDORS /\ vendor_at (index + k) = v.
Proof.
  intros Hin.
  destruct (In_nth _ _ ("", "") Hin) as (j & Hj & Hnth).
  exists ((Z.of_nat j - index) mod len VENDORS).
  split; [apply Z.mod_pos_bound; reflexivity|].
  unfold vendor_at. rewrite <- Hnth. f_equal.
  rewrite Z.add_mod_idemp_r by discriminate.
  replace (index + (Z.of_nat j - index)) with (Z.of_nat j) by lia.
  rewrite Z.mod_small by (unfold len; lia).
  apply Nat2Z.id.
Qed.

(** The activities take their vendors from the table in turn, [N]
    being the length of the table: the activity [N] days later, where
    the plan has one, has the same vendor and the same link; and among
    the activities of any [N] days in a row of the plan, the last [N]
    included, every vendor of the table has its day. *)
Theorem activity_vendors_rotate (payload : PlanRequest.t) (w w' : World)
  (resp : PlanResponse.t) (d : Z) :
  _generate_mock_plan payload w = (Ok resp, w') ->
  1 <= d ->
  (d + len VENDORS <= PlanResponse.nights resp ->
   map (fun it => (ItineraryItem.vendor it, ItineraryItem.link it))
       (items_on activity (d + len VENDORS) (PlanResponse.items resp))
   = map (fun it => (ItineraryItem.vendor it, ItineraryItem.link it))
       (items_on activity d (PlanResponse.items resp))) /\
  (d + len VENDORS - 1 <= PlanResponse.nights resp ->
   forall v, In v VENDORS ->
     exists k, 0 <= k < len VENDORS /\
       map ItineraryItem.vendor
           (items_on activity (d + k) (PlanResponse.items resp))
       = [Some (fst v)]).
Proof.
  intros Hrun H1.
  destruct (generate_inv _ _ _ _ Hrun)
    as (_ & start & end_ & nights & _ & ->).
  cbn [plan_of PlanResponse.items PlanResponse.nights] in *.
  assert (HN : len VENDORS = 6) by reflexivity.
  split.
  - intros Hn. rewrite !items_on_plan by (auto; lia).
    cbn [pick map activity_item ItineraryItem.vendor ItineraryItem.link].
    replace (d + len VENDORS + 2) with (d + 2 + len VENDORS) by lia.
    now rewrite vendor_at_period.
  - intros Hn v Hin.
    destruct (vendor_at_reaches v (d + 2) Hin) as (k & Hk & Hv).
    exists k. split; [exact Hk|].
    rewrite items_on_plan by (auto; lia).
    cbn [pick map activity_item ItineraryItem.vendor].
    replace (d + k + 2) with (d + 2 + k) by lia.
    now rewrite Hv.
Qed.

(** Days 1 and 7 of the nine nights in Rome. *)
Lemma activity_vendors_rotate_witness :
  map (fun it => (ItineraryItem.vendor it, ItineraryItem.link it))
      (items_on activity 7
         (PlanResponse.items
            (plan_of rome_request (ymd 2025 6 1) (ymd 2025 6 10) 9)))
  = [ (Some "Expedia",
       Some "https://www.expedia.com/search?q=Rome+walking+tour") ].
Proof.
  destruct (activity_vendors_rotate rome_request world_2025 world_2025
              (plan_of rome_request (ymd 2025 6 1) (ymd 2025 6 10) 9) 1
              eq_refl) as [Hperiod _].
  - intros H; discriminate H.
  - change (1 + len VENDORS) with 7 in Hperiod.
    rewrite Hperiod; [reflexivity|].
    intros H; discriminate H.
Defined.

(* ------------------------------------------------------------------ *)
(** ** Links *)

Lemma has_char_append (c : ascii) (a b : string) :
  has_char c (a +++ b) = has_char c a || has_char c b.
Proof.
  induction a as [|x a IH]; cbn [String.append has_char].
  - reflexivity.
  - now rewrite IH, orb_assoc.
Qed.

Lemma has_char_replace (old new : ascii) (s : string) :
  old <> new -> has_char old (replace old new s) = false.
Proof.
  intros Hneq. induction s as [|c s IH]; cbn [replace has_char].
  - reflexivity.
  - rewrite IH, orb_false_r.
    destruct (Ascii.eqb c old) eqn:E.
    + now apply Ascii.eqb_neq.
    + rewrite Ascii.eqb_sym. exact E.
Qed.

Lemma mock_link_no_space (vendor_base q : string) :
  has_char " " vendor_base = false ->
  has_char " " (_mock_link vendor_base q) = false.
Proof.
  intros Hbase. unfold _mock_link.
  rewrite !has_char_append, Hbase, has_char_replace by discriminate.
  reflexivity.
Qed.

Lemma vendor_base_no_space (index : Z) :
  has_char " " (snd (vendor_at index)) = false.
Proof.
  assert (Hall : Forall (fun v => has_char " " (snd v) = false) VENDORS)
    by (repeat constructor).
  rewrite Forall_forall in Hall. apply Hall, vendor_at_In.
Qed.

(** Every item of a plan has a link, and no link holds a space, whatever
    the destination. *)
Theorem links_have_no_space (payload : PlanRequest.t) (w w' : World)
  (resp : PlanResponse.t) (it : ItineraryItem.t) :
  _generate_mock_plan payload w = (Ok resp, w') ->
  In it (PlanResponse.items resp) ->
  exists l, ItineraryItem.link it = Some l /\ has_char " " l = false.
Proof.
  intros Hrun Hin.
  destruct (generate_inv _ _ _ _ Hrun)
    as (_ & start & end_ & nights & _ & ->).
  cbn [plan_of PlanResponse.items] in Hin.
  apply plan_items_In in Hin.
  destruct Hin as [-> | [-> | (d & Hd & [-> | ->])]];
    cbn [hotel_item activity_item restaurant_item ItineraryItem.link];
    eexists; (split; [reflexivity|]).
  - apply (mock_link_no_space (snd (vendor_at (1 - 1)))).
    apply vendor_base_no_space.
  - apply (mock_link_no_space (snd (vendor_at (2 - 1)))).
    apply vendor_base_no_space.
  - apply mock_link_no_space, vendor_base_no_space.
  - apply mock_link_no_space. reflexivity.
Qed.

(** The second hotel of a plan for "New York City". *)
Lemma links_have_no_space_witness :
  exists l,
    ItineraryItem.link (hotel_item "New York City" 4 2) = Some l /\
    has_char " " l = false.
Proof.
  apply (links_have_no_space (PlanRequest.new "New York City" [])
           world_2025 world_2025
           (plan_of (PlanRequest.new "New York City" [])
              (ymd 2025 5 15) (ymd 2025 5 19) 4)).
  - reflexivity.
  - right; left. reflexivity.
Defined.

Lemma replace_twice (a b : ascii) (s : string) :
  replace a b (replace b a s) = replace a b s.
Proof.
  induction s as [|c s IH]; cbn [replace]; [reflexivity|].
  rewrite IH. f_equal.
  destruct (Ascii.eqb_spec c b) as [->|Hb].
  - rewrite Ascii.eqb_refl. now destruct (Ascii.eqb b a).
  - reflexivity.
Qed.

Lemma replace_idempotent (a b : ascii) (s : string) :
  a <> b -> replace a b (replace a b s) = replace a b s.
Proof.
  intros Hneq. induction s as [|c s IH]; cbn [replace]; [reflexivity|].
  rewrite IH. f_equal.
  destruct (Ascii.eqb_spec c a) as [->|Ha].
  - destruct (Ascii.eqb_spec b a) as [E|_]; [now elim Hneq | reflexivity].
  - destruct (Ascii.eqb_spec c a); [contradiction | reflexivity].
Qed.

Lemma length_append (a b : string) :
  String.length (a +++ b) = (String.length a + String.length b)%nat.
Proof.
  induction a as [|c a IH]; cbn; [reflexivity | now rewrite IH].
Qed.

(** A link does not tell a space from a plus sign: a query and the same
    query with its plus signs turned into spaces, or its spaces into plus
    signs, give the same link, which is as long as the base, the ten
    characters of "/search?q=" and the query together. *)
Theorem mock_link_conflates_space_and_plus (vendor_base q : string) :
  _mock_link vendor_base (replace "+" " " q) = _mock_link vendor_base q /\
  _mock_link vendor_base (replace " " "+" q) = _mock_link vendor_base q /\
  String.length (_mock_link vendor_base q)
    = (String.length vendor_base + 10 + String.length q)%nat.
Proof.
  unfold _mock_link. split; [|split].
  - now rewrite replace_twice.
  - now rewrite replace_idempotent by discriminate.
  - rewrite !length_append, replace_length. cbn. lia.
Qed.

(* ------------------------------------------------------------------ *)
(** ** Titles *)

Lemma to_int_not_nil (n : Z) :
  Z.to_int n <> Decimal.Pos Decimal.Nil /\
  Z.to_int n <> Decimal.Neg Decimal.Nil.
Proof.
  destruct n as [|p|p]; cbn; split; intros E; try discriminate E;
    injection E; apply DecimalPos.Unsigned.to_uint_nonnil.
Qed.

(** Different numbers print differently. *)
Lemma str_int_inj (a b : Z) : str_int a = str_int b -> a = b.
Proof.
  unfold str_int. intros H.
  apply (f_equal NilZero.int_of_string) in H.
  destruct (to_int_not_nil a) as [Ha1 Ha2].
  destruct (to_int_not_nil b) as [Hb1 Hb2].
  rewrite !NilZero.isi in H by assumption.
  injection H. apply DecimalZ.to_int_inj.
Qed.

Lemma append_cancel_l (a x y : string) : a +++ x = a +++ y -> x = y.
Proof.
  induction a as [|c a IH]; cbn [String.append]; intros H.
  - exact H.
  - injection H. exact IH.
Qed.

(** Kind and title tell the items of a plan apart: two items of one kind
    with one title are the same item. In particular the title of an
    activity or of a restaurant gives its day away. *)
Theorem kind_and_title_identify_item (payload : PlanRequest.t)
  (w w' : World) (resp : PlanResponse.t) (it1 it2 : ItineraryItem.t) :
  _generate_mock_plan payload w = (Ok resp, w') ->
  In it1 (PlanResponse.items resp) ->
  In it2 (PlanResponse.items resp) ->
  ItineraryItem.type it1 = ItineraryItem.type it2 ->
  ItineraryItem.title it1 = ItineraryItem.title it2 ->
  it1 = it2.
Proof.
  intros Hrun Hin1 Hin2.
  destruct (generate_inv _ _ _ _ Hrun)
    as (_ & start & end_ & nights & _ & ->).
  cbn [plan_of PlanResponse.items] in Hin1, Hin2.
  apply plan_items_In in Hin1. apply plan_items_In in Hin2.
  destruct Hin1 as [-> | [-> | (d1 & Hd1 & [-> | ->])]];
  destruct Hin2 as [-> | [-> | (d2 & Hd2 & [-> | ->])]];
    cbn [hotel_item activity_item restaurant_item ItineraryItem.type
         ItineraryItem.title];
    intros Hkind Htitle; try discriminate Hkind; try reflexivity.
  - apply append_cancel_l in Htitle. discriminate Htitle.
  - apply append_cancel_l in Htitle. discriminate Htitle.
  - apply (append_cancel_l "Guided walking tour - Day ") in Htitle.
    apply str_int_inj in Htitle. now subst d2.
  - apply (append_cancel_l "Cozy local restaurant - Day ") in Htitle.
    apply str_int_inj in Htitle. now subst d2.
Qed.

(** The fifth item of the Paris plan is the activity of day 2. *)
Lemma kind_and_title_identify_item_witness :
  nth 4 (PlanResponse.items
           (plan_of paris_request (ymd 2025 6 1) (ymd 2025 6 4) 3))
        (restaurant_item "" 0)
  = activity_item "Paris" 2.
Proof.
  apply (kind_and_title_identify_item paris_request world_2025 world_2025
           (plan_of paris_request (ymd 2025 6 1) (ymd 2025 6 4) 3)).
  - reflexivity.
  - do 4 right. left. reflexivity.
  - do 4 right. left. reflexivity.
  - reflexivity.
  - reflexivity.
Defined.

(* ------------------------------------------------------------------ *)
(** ** Listing the stored trips *)

Section StoreProperties.

Context {stored : Type}.
Variable str_stored : stored -> string.
Variable get_documents : string -> Z -> M (list (dict stored)).

Lemma dict_lookup_set_same (d : dict stored) (key : string)
  (v : value stored) :
  dict_lookup (dict_set d key v) key = Some v.
Proof.
  induction d as [|[k x] d IH]; cbn [dict_set dict_lookup].
  - now rewrite String.eqb_refl.
  - destruct (String.eqb k key) eqn:E; cbn [dict_lookup]; rewrite E;
      [reflexivity | exact IH].
Qed.

Lemma dict_lookup_set_other (d : dict stored) (key other : string)
  (v : value stored) :
  other <> key ->
  dict_lookup (dict_set d key v) other = dict_lookup d other.
Proof.
  intros Hneq.
  induction d as [|[k x] d IH]; cbn [dict_set dict_lookup].
  - replace (String.eqb key other) with false; [reflexivity|].
    symmetry. apply String.eqb_neq. congruence.
  - destruct (String.eqb k key) eqn:E; cbn [dict_lookup].
    + apply String.eqb_eq in E. subst k.
      replace (String.eqb key other) with false; [reflexivity|].
      symmetry. apply String.eqb_neq. congruence.
    + now rewrite IH.
Qed.

Lemma dict_set_twice (d : dict stored) (key : string)
  (v v' : value stored) :
  dict_set (dict_set d key v) key v' = dict_set d key v'.
Proof.
  induction d as [|[k x] d IH]; cbn [dict_set].
  - now rewrite String.eqb_refl.
  - destruct (String.eqb k key) eqn:E; cbn [dict_set]; rewrite E;
      [reflexivity | now rewrite IH].
Qed.

Lemma dict_set_absent (d : dict stored) (key : string) (v : value stored) :
  dict_lookup d key = None -> dict_set d key v = (d ++ [(key, v)])%list.
Proof.
  induction d as [|[k x] d IH]; cbn [dict_set dict_lookup app].
  - reflexivity.
  - destruct (String.eqb k key); [discriminate|].
    intros H. now rewrite IH.
Qed.

Lemma dict_set_keys (d : dict stored) (key : string) (v x : value stored) :
  dict_lookup d key = Some x ->
  map fst (dict_set d key v) = map fst d.
Proof.
  induction d as [|[k y] d IH]; cbn [dict_set dict_lookup map fst].
  - discriminate.
  - destruct (String.eqb k key); cbn [map fst].
    + reflexivity.
    + intros H. now rewrite IH.
Qed.

Lemma sanitize_loop (docs : list (dict stored)) :
  for_each docs (fun d sanitized =>
    let d := dict_set d "_id"
               (VStr (str_value stored str_stored (dict_get d "_id"))) in
    Ok (sanitized ++ [d])%list) []
  = Ok (map (sanitize str_stored) docs).
Proof.
  rewrite (for_each_append (fun d => [sanitize str_stored d]))
    by reflexivity.
  cbn [app]. f_equal.
Qed.

(** The list endpoint: without a store it answers 503 and asks the store
    nothing; with one it asks for the "trip" documents, 20 of them
    unless told otherwise, answers with as many trips in the same order,
    each the document with its [_id] turned into text, and leaves an
    exception of the store uncaught. *)
Theorem list_trips_outcome (limit : option Z) (w : World) :
  let n := match limit with Some n => n | None => 20 end in
  (db w = None ->
   list_trips stored str_stored get_documents limit w
   = (Raise (HTTPException 503 "Database not available"), w)) /\
  (db w <> None ->
   forall docs w', get_documents "trip" n w = (Ok docs, w') ->
   list_trips stored str_stored get_documents limit w
   = (Ok [("trips", map (sanitize str_stored) docs)], w')) /\
  (db w <> None ->
   forall e w', get_documents "trip" n w = (Raise e, w') ->
   list_trips stored str_stored get_documents limit w = (Raise e, w')).
Proof.
  intros n. subst n. unfold list_trips, bind, get_db, raise, ret, lift.
  split; [|split].
  - intros ->. reflexivity.
  - intros Hdb docs w' Hdocs.
    destruct (db w); [|congruence].
    rewrite Hdocs, sanitize_loop. reflexivity.
  - intros Hdb e w' Hdocs.
    destruct (db w); [|congruence].
    now rewrite Hdocs.
Qed.

(** Every listed trip carries an [_id] that is text, the [str()] of what
    the document had there, and every other key with the value the
    document had. *)
Theorem listed_trip_fields (d : dict stored) :
  dict_lookup (sanitize str_stored d) "_id"
  = Some (VStr (str_value stored str_stored (dict_get d "_id"))) /\
  forall key, key <> "_id" ->
    dict_lookup (sanitize str_stored d) key = dict_lookup d key.
Proof.
  unfold sanitize. split.
  - apply dict_lookup_set_same.
  - intros key Hneq. now apply dict_lookup_set_other.
Qed.

(** A document without an [_id] is listed with the [_id] "None" added
    after its other keys; a document with one keeps its keys and their
    order; and a trip that went through the conversion once is not
    changed by going through it again. *)
Theorem sanitize_edge_cases (d : dict stored) :
  (dict_lookup d "_id" = None ->
   sanitize str_stored d = (d ++ [("_id", VStr "None")])%list) /\
  (dict_lookup d "_id" <> None ->
   map fst (sanitize str_stored d) = map fst d) /\
  sanitize str_stored (sanitize str_stored d) = sanitize str_stored d.
Proof.
  unfold sanitize. split; [|split].
  - intros Hnone. unfold dict_get. rewrite Hnone. cbn [str_value].
    now apply dict_set_absent.
  - intros Hsome.
    destruct (dict_lookup d "_id") as [x|] eqn:E; [|congruence].
    now apply (dict_set_keys d "_id" _ x).
  - rewrite dict_set_twice. f_equal.
    unfold dict_get at 1. rewrite dict_lookup_set_same. reflexivity.
Qed.

End StoreProperties.

(** The two stored trips, listed. *)
Example list_two_trips :
  list_trips string (fun hex => hex) two_trips_store None world_with_store
  = (Ok [("trips",
          [ [("_id", VStr "64f0c0ffee"); ("name", VStr "Paris in June")];
            [("name", VStr "Tokyo"); ("_id", VStr "None")] ])],
     world_with_store) /\
  list_trips string (fun hex => hex) two_trips_store None world_2025
  = (Raise (HTTPException 503 "Database not available"), world_2025).
Proof.
  split; reflexivity.
Qed.

(* ------------------------------------------------------------------ *)
(** ** The diagnostic *)

Lemma str_prefix_short (n : nat) (s : string) :
  (str_len (str_prefix n s) <= n)%nat.
Proof.
  revert n. induction s as [|c s IH]; intros n; cbn [str_prefix str_len].
  - lia.
  - destruct (is_continuation c) eqn:E; cbn [str_len]; rewrite ?E.
    + apply IH.
    + destruct n as [|n]; cbn [str_len]; rewrite ?E; [lia|].
      specialize (IH n). lia.
Qed.

Lemma str_prefix_prefix (n : nat) (s : string) :
  String.prefix (str_prefix n s) s = true.
Proof.
  revert n. induction s as [|c s IH]; intros n; cbn [str_prefix].
  - reflexivity.
  - destruct (is_continuation c).
    + cbn [String.prefix].
      destruct (ascii_dec c c) as [_|N]; [apply IH | now elim N].
    + destruct n as [|n]; [reflexivity|].
      cbn [String.prefix].
      destruct (ascii_dec c c) as [_|N]; [apply IH | now elim N].
Qed.

(** The diagnostic always answers, whatever the handle does when asked:
    no exception leaves it. The backend is reported as running, and the
    two configuration fields say whether the environment variables are
    set to something non-empty and nothing else: what the handle is, or
    is called, never shows in them. *)
Theorem diagnostic_always_answers (db : option Database.t)
  (getenv : string -> option string) :
  exists r,
    test_database db getenv = Returns r /\
    Diagnostics.backend r = "✅ Running" /\
    Diagnostics.database_url r =
      Some (if truthy_opt (getenv "DATABASE_URL")
            then "✅ Set" else "❌ Not Set") /\
    Diagnostics.database_name r =
      Some (if truthy_opt (getenv "DATABASE_NAME")
            then "✅ Set" else "❌ Not Set").
Proof.
  destruct db as [[[name|e] [names|e']]|];
    eexists; (split; [reflexivity|]); repeat split.
Qed.

(** What the diagnostic reports of the store. Without a handle: not
    initialized, not connected. With a handle whose name cannot be read:
    an error, and still not connected. With a handle that cannot list
    its collections: connected, with the error. Otherwise: connected and
    working. *)
Theorem diagnostic_status (db : option Database.t)
  (getenv : string -> option string) :
  exists r,
    test_database db getenv = Returns r /\
    (Diagnostics.database r, Diagnostics.connection_status r) =
    match db with
    | None => ("⚠️ Available but not initialized", "Not Connected")
    | Some handle =>
        match Database.name handle with
        | Raises e => ("❌ Error: " +++ str_prefix 50 e, "Not Connected")
        | Returns _ =>
            match Database.list_collection_names handle with
            | Raises e =>
                ("⚠️ Connected but Error: " +++ str_prefix 50 e,
                 "Connected")
            | Returns _ => ("✅ Connected & Working", "Connected")
            end
        end
    end.
Proof.
  destruct db as [[[name|e] [names|e']]|];
    eexists; split; reflexivity.
Qed.

Lemma str_len_append (a b : string) :
  str_len (a +++ b) = (str_len a + str_len b)%nat.
Proof.
  induction a as [|c a IH]; cbn [String.append str_len]; [reflexivity|].
  rewrite IH. now destruct (is_continuation c).
Qed.

(** The diagnostic is bounded: it reports the first ten collections the
    handle lists, in the handle's order, and none unless the name was
    read and the listing returned; and its status text has at most 74
    characters, however long the message of an exception is. *)
Theorem diagnostic_bounds (db : option Database.t)
  (getenv : string -> option string) :
  exists r,
    test_database db getenv = Returns r /\
    (List.length (Diagnostics.collections r) <= 10)%nat /\
    Diagnostics.collections r =
    match db with
    | Some handle =>
        match Database.name handle,
              Database.list_collection_names handle with
        | Returns _, Returns names => firstn 10 names
        | _, _ => []
        end
    | None => []
    end /\
    (str_len (Diagnostics.database r) <= 74)%nat.
Proof.
  destruct db as [[[name|e] [names|e']]|];
    eexists; (split; [reflexivity|]);
    (split; [|split; [reflexivity|]]).
  - exact (firstn_le_length 10 names).
  - vm_compute. clear. lia.
  - vm_compute. clear. lia.
  - change (str_len ("⚠️ Connected but Error: " +++ str_prefix 50 e')
            <= 74)%nat.
    rewrite str_len_append.
    pose proof (str_prefix_short 50 e') as Hshort.
    change (str_len "⚠️ Connected but Error: ") with 24%nat.
    clear - Hshort. lia.
  - vm_compute. clear. lia.
  - change (str_len ("❌ Error: " +++ str_prefix 50 e) <= 74)%nat.
    rewrite str_len_append.
    pose proof (str_prefix_short 50 e) as Hshort.
    change (str_len "❌ Error: ") with 9%nat. clear - Hshort. lia.
  - vm_compute. clear. lia.
  - change (str_len ("❌ Error: " +++ str_prefix 50 e) <= 74)%nat.
    rewrite str_len_append.
    pose proof (str_prefix_short 50 e) as Hshort.
    change (str_len "❌ Error: ") with 9%nat. clear - Hshort. lia.
  - vm_compute. clear. lia.
  - vm_compute. clear. lia.
Qed.

(** A handle whose listing fails, and no environment. *)
Example diagnostic_of_failing_store :
  test_database
    (Some (Database.mk (Returns (Some "trippy"))
                       (Raises "connection refused")))
    (fun _ => None)
  = Returns
      (Diagnostics.mk "✅ Running"
         "⚠️ Connected but Error: connection refused"
         (Some "❌ Not Set") (Some "❌ Not Set") "Connected" []).
Proof.
  reflexivity.
Qed.
